(** * Marketplace: form validation and view handlers

    A shallow embedding of [app/forms.py] and [app/views.py].

    - A Python [str] is a [string]; one [ascii] stands for one character.
    - A field that the submitted form data does not carry has [data = None].
    - A Python [float] is a [spec_float] (IEEE 754 binary64 data).
    - The database is a record of tables, each a list of rows in insertion
      order; a view runs in a small state-and-abort monad over the [World]
      (database, upload directory, login session, flashed messages).
    - A commit to the database and the saving of an uploaded file never
      raise here. The password hasher may raise (it answers [None] then),
      [os.remove] raises when the request's environment says so, and a text
      value in a file field makes [image.filename] raise.
    - The CSRF token that [FlaskForm] adds to every form is taken as valid. *)

From Stdlib Require Import ZArith List String Ascii Bool Lia.
From Stdlib Require Import Sorted Permutation.
From Stdlib Require Import SpecFloat.
Import ListNotations.

Local Open Scope string_scope.
Local Open Scope Z_scope.

(* ================================================================= *)
(** ** Strings *)

Module Str.

(** [str.strip()] removes the characters for which [str.isspace()] holds. *)
Definition isspace (c : ascii) : bool :=
  let n := N_of_ascii c in
  ((9 <=? n) && (n <=? 13) || (28 <=? n) && (n <=? 32)
   || (n =? 133) || (n =? 160))%N.

Fixpoint all (p : ascii -> bool) (s : string) : bool :=
  match s with
  | EmptyString => true
  | String c s' => p c && all p s'
  end.

(** [bool(s.strip())] is false exactly on a string of white space. *)
Definition blank (s : string) : bool := all isspace s.

Definition len (s : string) : Z := Z.of_nat (String.length s).

(** [c.lower()] on the letters A to Z. *)
Definition lower_char (c : ascii) : ascii :=
  let n := N_of_ascii c in
  if ((65 <=? n) && (n <=? 90))%N then ascii_of_N (n + 32) else c.

Fixpoint lower (s : string) : string :=
  match s with
  | EmptyString => EmptyString
  | String c s' => String (lower_char c) (lower s')
  end.

Fixpoint startswith (p s : string) : bool :=
  match p, s with
  | EmptyString, _ => true
  | String _ _, EmptyString => false
  | String a p', String b s' => Ascii.eqb a b && startswith p' s'
  end.

(** [p in s]: [p] occurs in [s] as a contiguous run of characters. *)
Fixpoint contains (p s : string) : bool :=
  startswith p s ||
  match s with
  | EmptyString => false
  | String _ s' => contains p s'
  end.

Fixpoint endswith (p s : string) : bool :=
  String.eqb p s ||
  match s with
  | EmptyString => false
  | String _ s' => endswith p s'
  end.

Definition opt_eqb (a b : option string) : bool :=
  match a, b with
  | Some x, Some y => String.eqb x y
  | None, None => true
  | _, _ => false
  end.

End Str.

(* ================================================================= *)
(** ** Data model *)

(** Modelled from the spec: [app/models.py] is not part of the sources; the
    four entities and their columns are those of the spec's data model. *)
Record User := mkUser
  { user_id : Z;
    user_email : string;
    user_password_hash : string }.

(** Modelled from the spec: the [Shop] entity of [app/models.py]. *)
Record Shop := mkShop
  { shop_id : Z;
    shop_name : string;
    shop_image : option string;
    shop_owner_id : Z }.

(** Modelled from the spec: the [Product] entity of [app/models.py]. *)
Record Product := mkProduct
  { product_id : Z;
    product_title : string;
    product_description : string;
    product_price : spec_float;
    product_image : option string;
    product_shop_id : Z }.

(** Modelled from the spec: the [Comment] entity of [app/models.py]. *)
Record Comment := mkComment
  { comment_id : Z;
    comment_text : string;
    comment_author_id : Z;
    comment_product_id : Z }.

Record Store := mkStore
  { users : list User;
    shops : list Shop;
    products : list Product;
    comments : list Comment }.

Definition empty_store : Store := mkStore [] [] [] [].

(** Modelled from the spec: the queries of the persistence store that the
    forms and the views issue through the ORM. *)
Module Query.

(** [Model.query.get(id)]: point lookup on the primary key. *)
Definition get {A} (key : A -> Z) (rows : list A) (id : Z) : option A :=
  find (fun r => key r =? id) rows.

(** [Model.query.filter_by(col=v).first()]. *)
Definition first_by {A} (col : A -> string) (rows : list A) (v : string)
  : option A :=
  find (fun r => String.eqb (col r) v) rows.

(** A fresh primary key: one more than the largest key in the table. *)
Definition next_id {A} (key : A -> Z) (rows : list A) : Z :=
  1 + fold_right (fun r m => Z.max (key r) m) 0 rows.

(** [Model.query.filter_by(col=id).delete()] and [db.session.delete(row)]. *)
Definition delete_by {A} (col : A -> Z) (rows : list A) (id : Z) : list A :=
  filter (fun r => negb (col r =? id)) rows.

(** [Model.query.order_by(Model.id.desc())]: insertion into a list that is
    already in descending order of the key. *)
Fixpoint insert_desc {A} (key : A -> Z) (r : A) (sorted : list A) : list A :=
  match sorted with
  | [] => [r]
  | x :: rest =>
      if key x <? key r then r :: sorted else x :: insert_desc key r rest
  end.

Definition order_by_desc {A} (key : A -> Z) (rows : list A) : list A :=
  fold_right (insert_desc key) [] rows.

End Query.

(* ================================================================= *)
(** ** Messages *)

(** The texts of [forms.py] and [views.py], one constructor each. *)
Inductive Message :=
  | EmailAlreadyRegistered      (* BaseForm.validate_email *)
  | EmailRequired
  | EmailInvalid
  | EmailTooLong
  | PasswordRequired
  | PasswordTooShort
  | ConfirmRequired
  | PasswordsMustMatch
  | ShopNameRequired
  | ShopNameLength
  | ShopNameExists              (* ShopForm.validate_name *)
  | ImagesOnly
  | TitleRequired
  | TitleLength
  | DescriptionRequired
  | DescriptionLength
  | PriceRequired
  | PriceMustBePositive
  | NotAValidFloat              (* FloatField.process_formdata *)
  | CommentRequired
  | CommentLength
  | OldPasswordRequired
  | QueryRequired
  | WrongEmailOrPassword        (* login *)
  | EmailAlreadyRegisteredBang  (* register *)
  | RegistrationDone
  | ShopCreated
  | ProductAdded
  | LoginNeededToComment
  | CommentAdded
  | ProductDeleted
  | ProfileUpdated
  | PasswordChanged
  | WrongCurrentPassword
  | RegistrationError           (* register, with the text of the exception *)
  | ProductAddError             (* add_product, with the text of the exception *)
  | ImageRemoveError.           (* delete_product, with the text of the OSError *)

Inductive Category := success | danger | warning | info.

Inductive FieldName :=
  | f_email | f_password | f_confirm_password | f_name | f_image | f_title
  | f_description | f_price | f_text | f_old_password | f_new_password
  | f_query.

Definition FieldName_eqb (a b : FieldName) : bool :=
  match a, b with
  | f_email, f_email | f_password, f_password
  | f_confirm_password, f_confirm_password | f_name, f_name
  | f_image, f_image | f_title, f_title | f_description, f_description
  | f_price, f_price | f_text, f_text | f_old_password, f_old_password
  | f_new_password, f_new_password | f_query, f_query => true
  | _, _ => false
  end.

(** What a [wtforms.FileField] holds after a submission: nothing, the text
    of an ordinary form field of that name, or an uploaded file, seen
    through its [filename]. *)
Inductive Upload :=
  | NoUpload
  | TextValue (text : string)
  | FileUpload (filename : string).

(** Truth value of the field's data: a text is true unless empty, a file
    unless its name is empty. *)
Definition Upload_truthy (u : Upload) : bool :=
  match u with
  | NoUpload => false
  | TextValue text => negb (String.eqb text "")
  | FileUpload filename => negb (String.eqb filename "")
  end.

(* ================================================================= *)
(** ** Validators (the [wtforms.validators] that [forms.py] uses) *)

Module Validators.

(** What a validator raises. *)
Inductive Raised :=
  | NoRaise
  | ValidationError (m : Message)
  | StopValidation (m : Message).

(** A validator reads the field's data and may rewrite the field's error
    list before it raises. *)
Definition Validator (D : Type) : Type :=
  D -> list Message -> list Message * Raised.

(** [Field._run_validation_chain]: [ValidationError] records the message
    and goes on, [StopValidation] records it and ends the chain. *)
Fixpoint run_validation_chain {D} (chain : list (Validator D)) (d : D)
  (errors : list Message) : list Message :=
  match chain with
  | [] => errors
  | v :: rest =>
      match v d errors with
      | (errors', NoRaise) => run_validation_chain rest d errors'
      | (errors', ValidationError m) =>
          run_validation_chain rest d (errors' ++ [m])
      | (errors', StopValidation m) => errors' ++ [m]
      end
  end.

(** [Field.validate(form, extra_validators)]: the field's own validators,
    then the form's inline [validate_<name>] ones, starting from the errors
    of [process_formdata]. *)
Definition validate_field {D} (validators extra : list (Validator D))
  (process_errors : list Message) (d : D) : list Message :=
  run_validation_chain (validators ++ extra) d process_errors.

(** [DataRequired] on a string field: the data must be truthy and not all
    white space; otherwise earlier errors are dropped and the chain ends. *)
Definition DataRequired (message : Message) : Validator (option string) :=
  fun d errors =>
    match d with
    | Some s =>
        if negb (String.eqb s "") && negb (Str.blank s)
        then (errors, NoRaise)
        else ([], StopValidation message)
    | None => ([], StopValidation message)
    end.

(** Truth value of a Python float: every value but zero. *)
Definition float_truthy (x : spec_float) : bool :=
  match x with
  | S754_zero _ => false
  | _ => true
  end.

(** [DataRequired] on a float field. *)
Definition DataRequired_float (message : Message)
  : Validator (option spec_float) :=
  fun d errors =>
    match d with
    | Some x =>
        if float_truthy x then (errors, NoRaise)
        else ([], StopValidation message)
    | None => ([], StopValidation message)
    end.

(** [Length(min, max)]: [-1] stands for an absent bound. *)
Definition Length (min max : Z) (message : Message)
  : Validator (option string) :=
  fun d errors =>
    let length := match d with Some s => Str.len s | None => 0 end in
    if (min <=? length) && ((max =? -1) || (length <=? max))
    then (errors, NoRaise)
    else (errors, ValidationError message).

(** [EqualTo(fieldname)]: [other] is the data of the named field. *)
Definition EqualTo (other : option string) (message : Message)
  : Validator (option string) :=
  fun d errors =>
    if Str.opt_eqb d other then (errors, NoRaise)
    else (errors, ValidationError message).

Definition is_nan (x : spec_float) : bool :=
  match x with
  | S754_nan => true
  | _ => false
  end.

(** [NumberRange(min, max)]: fails when the data is [None] or NaN, or
    [data < min], or [data > max]. *)
Definition NumberRange (min max : option spec_float) (message : Message)
  : Validator (option spec_float) :=
  fun d errors =>
    match d with
    | None => (errors, ValidationError message)
    | Some x =>
        if is_nan x
           || match min with Some lo => SFltb x lo | None => false end
           || match max with Some hi => SFltb hi x | None => false end
        then (errors, ValidationError message)
        else (errors, NoRaise)
    end.

(** [FileAllowed(upload_set)]: data that is not a file with a name passes
    unchecked; a file passes when its lowered name ends in a dot and one of
    the extensions. *)
Definition FileAllowed (upload_set : list string) (message : Message)
  : Validator Upload :=
  fun d errors =>
    match d with
    | NoUpload => (errors, NoRaise)
    | TextValue _ => (errors, NoRaise)
    | FileUpload filename =>
        if String.eqb filename "" then (errors, NoRaise)
        else if existsb (fun x => Str.endswith ("." ++ x) (Str.lower filename))
                  upload_set
        then (errors, NoRaise)
        else (errors, StopValidation message)
    end.

End Validators.
Import Validators.

(** [form.errors]: the fields that have errors, each with its messages. *)
Definition Errors : Type := list (FieldName * list Message).

Definition report (name : FieldName) (errs : list Message) : Errors :=
  match errs with
  | [] => []
  | _ => [(name, errs)]
  end.

Fixpoint field_errors (name : FieldName) (e : Errors) : list Message :=
  match e with
  | [] => []
  | (n, ms) :: e' => if FieldName_eqb n name then ms else field_errors name e'
  end.

Definition no_errors (e : Errors) : bool :=
  match e with
  | [] => true
  | _ => false
  end.

(** What a [FloatField] receives: nothing, a text that [float()] rejects, or
    a text that [float()] reads as [x]. *)
Inductive FloatInput :=
  | FloatMissing
  | FloatUnparsable
  | FloatParsed (x : spec_float).

(** [FloatField.process_formdata]: the field's data and its process errors. *)
Definition FloatField_process (i : FloatInput)
  : option spec_float * list Message :=
  match i with
  | FloatMissing => (None, [])
  | FloatUnparsable => (None, [NotAValidFloat])
  | FloatParsed x => (Some x, [])
  end.

(** The binary64 value of the literal [0.01]:
    [5764607523034235 * 2^(-59)]. *)
Definition float_0_01 : spec_float :=
  S754_finite false 5764607523034235 (-59).


(* ================================================================= *)
(** ** The world a view runs in *)

Inductive Method := GET | POST.

(** What a view reads from the request besides its form, and from the
    environment while the request is served: the method, the query
    arguments [next] and [q], the token that [uuid.uuid4().hex] yields, and
    whether [os.remove] raises [OSError]. *)
Record Request := mkRequest
  { method : Method;
    args_next : option string;
    args_q : option string;
    uuid4_hex : string;
    os_remove_raises : bool }.

Record World := mkWorld
  { db : Store;
    uploads : list string;          (* files under static/uploads *)
    session : option Z;             (* id of the logged-in user *)
    flashed : list (Category * Message) }.

Inductive Endpoint :=
  | views_index
  | views_login
  | views_register
  | views_manage_shop (shop_id : Z)
  | views_product (product_id : Z)
  | views_account.

Inductive Template :=
  | index_html | login_html | register_html | create_shop_html | manage_shop_html
  | shop_html | add_product_html | product_html | search_html
  | account_html | edit_account_html | change_password_html.

(** The keyword arguments of [render_template]. *)
Record Context := mkContext
  { ctx_form : option Errors;       (* form=form, seen through form.errors *)
    ctx_shop : option Shop;
    ctx_shops : list Shop;
    ctx_product : option Product;
    ctx_results : list Product;
    ctx_query : option string }.

Definition no_context : Context := mkContext None None [] None [] None.

Inductive Response :=
  | redirect_url_for (e : Endpoint)
  | redirect (url : string)
  | render_template (t : Template) (c : Context).

(** How a view ends: it returns, [abort(code)] raises an HTTP error,
    [login_required] turns an anonymous caller away, or an exception that
    nothing catches leaves the view. *)
Inductive Reply (A : Type) :=
  | Returns (a : A)
  | Abort (code : Z)
  | Unauthorized
  | Uncaught.
Arguments Returns {A} a.
Arguments Abort {A} code.
Arguments Unauthorized {A}.
Arguments Uncaught {A}.

Definition View (A : Type) : Type := World -> Reply A * World.

Definition ret {A} (a : A) : View A := fun w => (Returns a, w).

Definition bind {A B} (m : View A) (k : A -> View B) : View B :=
  fun w =>
    match m w with
    | (Returns a, w') => k a w'
    | (Abort code, w') => (Abort code, w')
    | (Unauthorized, w') => (Unauthorized, w')
    | (Uncaught, w') => (Uncaught, w')
    end.

Declare Scope view_scope.
Delimit Scope view_scope with view.
Notation "x <- m ;; k" := (bind m (fun x => k))
  (at level 61, m at next level, right associativity) : view_scope.
Notation "m ;; k" := (bind m (fun _ => k))
  (at level 61, right associativity) : view_scope.
Local Open Scope view_scope.

Definition abort {A} (code : Z) : View A := fun w => (Abort code, w).

Definition raise_uncaught {A} : View A := fun w => (Uncaught, w).

(** [try: body except Exception: handler]: the handler takes over when the
    body raises; what the body did before stays (a commit is one step here,
    so [db.session.rollback()] finds nothing to undo). *)
Definition try_except {A} (body handler : View A) : View A :=
  fun w =>
    match body w with
    | (Uncaught, w') => handler w'
    | r => r
    end.

Definition flash (m : Message) (c : Category) : View unit :=
  fun w =>
    (Returns tt, mkWorld (db w) (uploads w) (session w) (flashed w ++ [(c, m)])).

(** Reads the database. *)
Definition query {A} (q : Store -> A) : View A := fun w => (Returns (q (db w)), w).

(** [db.session.add / delete / attribute assignment] followed by
    [db.session.commit()]. *)
Definition commit (f : Store -> Store) : View unit :=
  fun w => (Returns tt, mkWorld (f (db w)) (uploads w) (session w) (flashed w)).

(** [Model.query.get_or_404(id)]. *)
Definition get_or_404 {A} (key : A -> Z) (table : Store -> list A) (id : Z)
  : View A :=
  r <- query (fun st => Query.get key (table st) id) ;;
  match r with
  | Some row => ret row
  | None => abort 404
  end.

(** [current_user]: the user the session names, loaded from the database;
    [None] is the anonymous user. *)
Definition current_user : View (option User) :=
  fun w =>
    (Returns match session w with
             | Some uid => Query.get user_id (users (db w)) uid
             | None => None
             end, w).

Definition is_authenticated (u : option User) : bool :=
  match u with
  | Some _ => true
  | None => false
  end.

Definition login_user (u : User) : View unit :=
  fun w => (Returns tt, mkWorld (db w) (uploads w) (Some (user_id u)) (flashed w)).

Definition logout_user : View unit :=
  fun w => (Returns tt, mkWorld (db w) (uploads w) None (flashed w)).

(** The decorator [@login_required]: the view body receives the caller. *)
Definition login_required {A} (body : User -> View A) : View A :=
  u <- current_user ;;
  match u with
  | Some caller => body caller
  | None => fun w => (Unauthorized, w)
  end.

(** [image.save(path)] under the upload folder. *)
Definition save_upload (name : string) : View unit :=
  fun w => (Returns tt, mkWorld (db w) (name :: uploads w) (session w) (flashed w)).

(** [os.remove(path)] when it succeeds. *)
Definition remove_upload (name : string) : View unit :=
  fun w =>
    (Returns tt,
     mkWorld (db w) (filter (fun n => negb (String.eqb n name)) (uploads w))
             (session w) (flashed w)).

(** [os.path.exists(path)]. *)
Definition path_exists (name : string) : View bool :=
  fun w => (Returns (existsb (String.eqb name) (uploads w)), w).

(** [a != b] on users compares their ids; a missing owner differs from
    every user. *)
Definition user_ne (a : option User) (b : User) : bool :=
  match a with
  | Some u => negb (user_id u =? user_id b)
  | None => true
  end.

(** The relationship [shop.owner]. *)
Definition shop_owner (st : Store) (s : Shop) : option User :=
  Query.get user_id (users st) (shop_owner_id s).

(** The relationship [product.shop]. *)
Definition product_shop (st : Store) (p : Product) : option Shop :=
  Query.get shop_id (shops st) (product_shop_id p).

(** Truth value of an optional string: present and not empty. *)
Definition truthy (s : option string) : bool :=
  match s with
  | Some x => negb (String.eqb x "")
  | None => false
  end.

(** [form.is_submitted()]. *)
Definition is_submitted (req : Request) : bool :=
  match method req with
  | POST => true
  | GET => false
  end.

(** [form.validate_on_submit()], that is [is_submitted() and validate()],
    given what [validate()] would report: the answer, and [form.errors]
    afterwards (empty when [validate()] did not run). *)
Definition validate_on_submit (req : Request) (validate : Errors)
  : bool * Errors :=
  if is_submitted req then (no_errors validate, validate) else (false, []).

(* ================================================================= *)
(** ** The SQL operator behind [Column.ilike] *)

Module Sql.

(** [like p s]: the SQL [LIKE] match of the text [s] against the pattern [p],
    where [%] stands for any run of characters and [_] for any one. *)
Fixpoint like (p s : string) : bool :=
  match p with
  | EmptyString =>
      match s with
      | EmptyString => true
      | String _ _ => false
      end
  | String c p' =>
      if Ascii.eqb c "%" then
        (fix skip (t : string) : bool :=
           like p' t ||
           match t with
           | EmptyString => false
           | String _ t' => skip t'
           end) s
      else
        match s with
        | EmptyString => false
        | String d s' => (Ascii.eqb c "_" || Ascii.eqb c d) && like p' s'
        end
  end.

(** [column.ilike(pattern)]: [lower(column) LIKE lower(pattern)]. *)
Definition ilike (column pattern : string) : bool :=
  like (Str.lower pattern) (Str.lower column).

End Sql.

(* ================================================================= *)
(** ** forms.py *)

Local Open Scope list_scope.

Record LoginForm := mkLoginForm
  { login_email : option string;
    login_password : option string;
    login_remember : bool }.

Record RegisterForm := mkRegisterForm
  { register_email : option string;
    register_password : option string;
    register_confirm_password : option string }.

(** The attribute [shop], which [validate_name] looks for with [hasattr], is
    not form data: it is the argument [self_shop] of the validation. *)
Record ShopForm := mkShopForm
  { shopform_name : option string;
    shopform_image : Upload }.

Record ProductForm := mkProductForm
  { productform_title : option string;
    productform_description : option string;
    productform_price : FloatInput;
    productform_image : Upload }.

Record CommentForm := mkCommentForm
  { commentform_text : option string }.

Record EditProfileForm := mkEditProfileForm
  { editprofile_email : option string }.

Record ChangePasswordForm := mkChangePasswordForm
  { changepw_old_password : option string;
    changepw_new_password : option string;
    changepw_confirm_password : option string }.

Record SearchForm := mkSearchForm
  { searchform_query : option string }.

Section Forms.

(** The syntax check of the [email_validator] package behind [Email()]. *)
Variable email_syntax_ok : string -> bool.

Definition Email (message : Message) : Validator (option string) :=
  fun d errors =>
    match d with
    | Some s =>
        if email_syntax_ok s then (errors, NoRaise)
        else (errors, ValidationError message)
    | None => (errors, ValidationError message)
    end.

(** [BaseForm.validate_email]. *)
Definition validate_email (st : Store) : Validator (option string) :=
  fun d errors =>
    match d with
    | Some data =>
        match Query.first_by user_email (users st) data with
        | Some _ => (errors, ValidationError EmailAlreadyRegistered)
        | None => (errors, NoRaise)
        end
    | None => (errors, NoRaise)
    end.

(** [ShopForm.validate_name]; [self_shop] is [self.shop] when the form has
    that attribute. *)
Definition validate_name (st : Store) (self_shop : option Shop)
  : Validator (option string) :=
  fun d errors =>
    match d with
    | Some data =>
        match Query.first_by shop_name (shops st) data with
        | Some shop =>
            if match self_shop with
               | None => true
               | Some own => negb (shop_id shop =? shop_id own)
               end
            then (errors, ValidationError ShopNameExists)
            else (errors, NoRaise)
        | None => (errors, NoRaise)
        end
    | None => (errors, NoRaise)
    end.

Definition LoginForm_validate (f : LoginForm) : Errors :=
  report f_email
    (validate_field [DataRequired EmailRequired; Email EmailInvalid] [] []
       (login_email f)) ++
  report f_password
    (validate_field [DataRequired PasswordRequired] [] [] (login_password f)).

Definition email_field_validators : list (Validator (option string)) :=
  [DataRequired EmailRequired; Email EmailInvalid; Length (-1) 100 EmailTooLong].

Definition RegisterForm_validate (st : Store) (f : RegisterForm) : Errors :=
  report f_email
    (validate_field email_field_validators [validate_email st] []
       (register_email f)) ++
  report f_password
    (validate_field
       [DataRequired PasswordRequired; Length 8 (-1) PasswordTooShort] [] []
       (register_password f)) ++
  report f_confirm_password
    (validate_field
       [DataRequired ConfirmRequired;
        EqualTo (register_password f) PasswordsMustMatch] [] []
       (register_confirm_password f)).

Definition image_validators : list (Validator Upload) :=
  [FileAllowed ["jpg"; "jpeg"; "png"] ImagesOnly].

Definition ShopForm_validate (st : Store) (self_shop : option Shop)
  (f : ShopForm) : Errors :=
  report f_name
    (validate_field
       [DataRequired ShopNameRequired; Length 3 100 ShopNameLength]
       [validate_name st self_shop] [] (shopform_name f)) ++
  report f_image (validate_field image_validators [] [] (shopform_image f)).

(** The validation of the field [ProductForm.price]. *)
Definition price_errors (i : FloatInput) : list Message :=
  let '(data, process_errors) := FloatField_process i in
  validate_field
    [DataRequired_float PriceRequired;
     NumberRange (Some float_0_01) None PriceMustBePositive] []
    process_errors data.

Definition ProductForm_validate (f : ProductForm) : Errors :=
  report f_title
    (validate_field [DataRequired TitleRequired; Length 3 100 TitleLength]
       [] [] (productform_title f)) ++
  report f_description
    (validate_field
       [DataRequired DescriptionRequired; Length 10 2000 DescriptionLength]
       [] [] (productform_description f)) ++
  report f_price (price_errors (productform_price f)) ++
  report f_image (validate_field image_validators [] [] (productform_image f)).

Definition CommentForm_validate (f : CommentForm) : Errors :=
  report f_text
    (validate_field [DataRequired CommentRequired; Length 10 500 CommentLength]
       [] [] (commentform_text f)).

Definition EditProfileForm_validate (st : Store) (f : EditProfileForm)
  : Errors :=
  report f_email
    (validate_field email_field_validators [validate_email st] []
       (editprofile_email f)).

Definition ChangePasswordForm_validate (f : ChangePasswordForm) : Errors :=
  report f_old_password
    (validate_field [DataRequired OldPasswordRequired] [] []
       (changepw_old_password f)) ++
  report f_new_password
    (validate_field
       [DataRequired PasswordRequired; Length 8 (-1) PasswordTooShort] [] []
       (changepw_new_password f)) ++
  report f_confirm_password
    (validate_field
       [DataRequired ConfirmRequired;
        EqualTo (changepw_new_password f) PasswordsMustMatch] [] []
       (changepw_confirm_password f)).

Definition SearchForm_validate (f : SearchForm) : Errors :=
  report f_query
    (validate_field [DataRequired QueryRequired] [] [] (searchform_query f)).

End Forms.

(* ================================================================= *)
(** ** views.py *)

Section Views.

Variable email_syntax_ok : string -> bool.

(** [bcrypt.generate_password_hash(p).decode('utf-8')] and
    [bcrypt.check_password_hash(h, p)]; [None] when the call raises (as
    bcrypt does on a password of more than 72 bytes). *)
Variable generate_password_hash : string -> option string.
Variable check_password_hash : string -> string -> option bool.

(** [werkzeug.utils.secure_filename]. *)
Variable secure_filename : string -> string.

Definition form_context (e : Errors) : Context :=
  mkContext (Some e) None [] None [] None.

(** The text a validated string field holds. *)
Definition data (d : option string) : string :=
  match d with
  | Some s => s
  | None => ""
  end.

Definition first_user_by_email (st : Store) (d : option string) : option User :=
  match d with
  | Some e => Query.first_by user_email (users st) e
  | None => None
  end.

(** [ALLOWED_EXTENSIONS]. *)
Definition ALLOWED_EXTENSIONS : list string := ["png"; "jpg"; "jpeg"; "gif"].

(** [filename.rsplit('.', 1)[1]]: the text after the last dot, when the
    name has a dot. *)
Fixpoint after_last_dot (filename : string) : option string :=
  match filename with
  | EmptyString => None
  | String c rest =>
      match after_last_dot rest with
      | Some ext => Some ext
      | None => if Ascii.eqb c "." then Some rest else None
      end
  end.

Definition allowed_file (filename : string) : bool :=
  Str.contains "." filename
  && match after_last_dot filename with
     | Some ext => existsb (String.eqb (Str.lower ext)) ALLOWED_EXTENSIONS
     | None => false
     end.

Definition index : View Response :=
  products <-
    query (fun st =>
             firstn 10 (Query.order_by_desc product_id (products st))) ;;
  ret (render_template index_html (mkContext None None [] None products None)).

Definition login (req : Request) (form : LoginForm) : View Response :=
  caller <- current_user ;;
  if is_authenticated caller then ret (redirect_url_for views_index)
  else
    let '(valid, errors) :=
      validate_on_submit req (LoginForm_validate email_syntax_ok form) in
    (if valid then
       user <- query (fun st => first_user_by_email st (login_email form)) ;;
       match user with
       | Some u =>
           match check_password_hash (user_password_hash u)
                   (data (login_password form)) with
           | Some true =>
               login_user u ;;
               ret (if truthy (args_next req)
                    then redirect (data (args_next req))
                    else redirect_url_for views_index)
           | Some false =>
               flash WrongEmailOrPassword danger ;;
               ret (render_template login_html (form_context errors))
           | None => raise_uncaught      (* nothing catches the ValueError *)
           end
       | None =>
           flash WrongEmailOrPassword danger ;;
           ret (render_template login_html (form_context errors))
       end
     else ret (render_template login_html (form_context errors))).

(** A call of [bcrypt.generate_password_hash]. *)
Definition hash_password (p : string) : View string :=
  match generate_password_hash p with
  | Some h => ret h
  | None => raise_uncaught
  end.

Definition add_user (email password_hash : string) (st : Store) : Store :=
  mkStore
    (users st ++ [mkUser (Query.next_id user_id (users st)) email password_hash])
    (shops st) (products st) (comments st).

Definition register (req : Request) (form : RegisterForm) : View Response :=
  caller <- current_user ;;
  if is_authenticated caller then ret (redirect_url_for views_index)
  else
    st <- query (fun st => st) ;;
    let '(valid, errors) :=
      validate_on_submit req (RegisterForm_validate email_syntax_ok st form) in
    if valid then
      try_except
        (existing_user <-
           query (fun st => first_user_by_email st (register_email form)) ;;
         match existing_user with
         | Some _ =>
             flash EmailAlreadyRegisteredBang danger ;;
             ret (redirect_url_for views_register)
         | None =>
             hashed_password <-
               hash_password (data (register_password form)) ;;
             commit (add_user (data (register_email form)) hashed_password) ;;
             flash RegistrationDone success ;;
             ret (redirect_url_for views_login)
         end)
        (flash RegistrationError danger ;;
         ret (redirect_url_for views_register))
    else ret (render_template register_html (form_context errors)).

Definition logout : View Response :=
  login_required (fun _ =>
    logout_user ;;
    ret (redirect_url_for views_index)).

(** The upload step that [create_shop] and [add_product] share: the stored
    name, when the field's data is true; [image.filename] raises
    [AttributeError] on a text. *)
Definition store_image (req : Request) (image : Upload)
  : View (option string) :=
  if Upload_truthy image then
    match image with
    | FileUpload filename =>
        let unique_filename :=
          (uuid4_hex req ++ "_" ++ secure_filename filename)%string in
        save_upload unique_filename ;;
        ret (Some unique_filename)
    | _ => raise_uncaught
    end
  else ret None.

Definition add_shop (name : string) (owner : User) (image : option string)
  (st : Store) : Store :=
  mkStore (users st)
    (shops st ++
     [mkShop (Query.next_id shop_id (shops st)) name image (user_id owner)])
    (products st) (comments st).

Definition create_shop (req : Request) (form : ShopForm) : View Response :=
  login_required (fun caller =>
    st <- query (fun st => st) ;;
    let '(valid, errors) :=
      validate_on_submit req (ShopForm_validate st None form) in
    if valid then
      image_filename <- store_image req (shopform_image form) ;;
      new_id <- query (fun st => Query.next_id shop_id (shops st)) ;;
      commit (add_shop (data (shopform_name form)) caller image_filename) ;;
      flash ShopCreated success ;;
      ret (redirect_url_for (views_manage_shop new_id))
    else ret (render_template create_shop_html (form_context errors))).

Definition shop_context (s : Shop) (e : option Errors) : Context :=
  mkContext e (Some s) [] None [] None.

Definition manage_shop (shop_id' : Z) : View Response :=
  login_required (fun caller =>
    shop <- get_or_404 shop_id shops shop_id' ;;
    owner <- query (fun st => shop_owner st shop) ;;
    if user_ne owner caller then abort 403
    else ret (render_template manage_shop_html (shop_context shop None))).

Definition shop (shop_id' : Z) : View Response :=
  shop <- get_or_404 shop_id shops shop_id' ;;
  ret (render_template shop_html (shop_context shop None)).

(** The price a validated form holds. *)
Definition price_data (i : FloatInput) : spec_float :=
  match i with
  | FloatParsed x => x
  | _ => S754_nan
  end.

Definition add_product_row (form : ProductForm) (image : option string)
  (shop : Shop) (st : Store) : Store :=
  mkStore (users st) (shops st)
    (products st ++
     [mkProduct (Query.next_id product_id (products st))
        (data (productform_title form)) (data (productform_description form))
        (price_data (productform_price form)) image (shop_id shop)])
    (comments st).

Definition add_product (req : Request) (form : ProductForm) (shop_id' : Z)
  : View Response :=
  login_required (fun caller =>
    shop <- get_or_404 shop_id shops shop_id' ;;
    owner <- query (fun st => shop_owner st shop) ;;
    if user_ne owner caller then abort 403
    else
      let '(valid, errors) :=
        validate_on_submit req (ProductForm_validate form) in
      if valid then
        try_except
          (image_filename <- store_image req (productform_image form) ;;
           commit (add_product_row form image_filename shop) ;;
           flash ProductAdded success ;;
           ret (redirect_url_for (views_manage_shop (shop_id shop))))
          (flash ProductAddError danger ;;
           ret (render_template add_product_html
                  (shop_context shop (Some errors))))
      else
        ret (render_template add_product_html (shop_context shop (Some errors)))).

Definition add_comment (text : string) (author : User) (p : Product)
  (st : Store) : Store :=
  mkStore (users st) (shops st) (products st)
    (comments st ++
     [mkComment (Query.next_id comment_id (comments st)) text (user_id author)
        (product_id p)]).

Definition product_context (p : Product) (e : Errors) : Context :=
  mkContext (Some e) None [] (Some p) [] None.

Definition product (req : Request) (form : CommentForm) (product_id' : Z)
  : View Response :=
  product <- get_or_404 product_id products product_id' ;;
  let '(valid, errors) :=
    validate_on_submit req (CommentForm_validate form) in
  if valid then
    caller <- current_user ;;
    match caller with
    | None =>
        flash LoginNeededToComment warning ;;
        ret (redirect_url_for views_login)
    | Some author =>
        commit (add_comment (data (commentform_text form)) author product) ;;
        flash CommentAdded success ;;
        ret (redirect_url_for (views_product (product_id product)))
    end
  else ret (render_template product_html (product_context product errors)).

(** [Comment.query.filter_by(product_id=product.id).delete()] followed by
    [db.session.delete(product)]. *)
Definition delete_product_rows (p : Product) (st : Store) : Store :=
  mkStore (users st) (shops st)
    (Query.delete_by product_id (products st) (product_id p))
    (Query.delete_by comment_product_id (comments st) (product_id p)).

(** [os.remove(path)]: raises [OSError] when the environment says so. *)
Definition os_remove (req : Request) (name : string) : View unit :=
  if os_remove_raises req then raise_uncaught else remove_upload name.

(** The image step of [delete_product]: the file goes when the product
    names one and it is there; an [OSError] is flashed as a warning and the
    deletion goes on. *)
Definition remove_image (req : Request) (product : Product) : View unit :=
  if truthy (product_image product)
  then
    try_except
      (there <- path_exists (data (product_image product)) ;;
       if there then os_remove req (data (product_image product))
       else ret tt)
      (flash ImageRemoveError warning)
  else ret tt.

Definition delete_product (req : Request) (product_id' : Z) : View Response :=
  login_required (fun caller =>
    product <- get_or_404 product_id products product_id' ;;
    pshop <- query (fun st => product_shop st product) ;;
    match pshop with
    | None => raise_uncaught        (* product.shop is None: AttributeError *)
    | Some pshop =>
        let shop_id' := shop_id pshop in
        owner <- query (fun st => shop_owner st pshop) ;;
        if user_ne owner caller then abort 403
        else
          remove_image req product ;;
          commit (delete_product_rows product) ;;
          flash ProductDeleted success ;;
          ret (redirect_url_for (views_manage_shop shop_id'))
    end).

Definition search_context (results : list Product) (q : string) : Context :=
  mkContext None None [] None results (Some q).

(** [Product.title.ilike(f'%{query}%') | Product.description.ilike(...)]. *)
Definition search_filter (q : string) (p : Product) : bool :=
  Sql.ilike (product_title p) ("%" ++ q ++ "%")%string
  || Sql.ilike (product_description p) ("%" ++ q ++ "%")%string.

Definition search (req : Request) : View Response :=
  let q := match args_q req with Some s => s | None => "" end in
  results <-
    (if negb (String.eqb q "")
     then query (fun st => filter (search_filter q) (products st))
     else ret []) ;;
  ret (render_template search_html (search_context results q)).

Definition account : View Response :=
  login_required (fun caller =>
    shops <-
      query (fun st =>
               filter (fun s => shop_owner_id s =? user_id caller) (shops st)) ;;
    ret (render_template account_html (mkContext None None shops None [] None))).

(** [current_user.email = ...] and [current_user.password_hash = ...]. *)
Definition update_user (caller : User) (f : User -> User) (st : Store) : Store :=
  mkStore
    (map (fun u => if user_id u =? user_id caller then f u else u) (users st))
    (shops st) (products st) (comments st).

Definition set_email (e : string) (u : User) : User :=
  mkUser (user_id u) e (user_password_hash u).

Definition set_password_hash (h : string) (u : User) : User :=
  mkUser (user_id u) (user_email u) h.

Definition edit_account (req : Request) (form : EditProfileForm)
  : View Response :=
  login_required (fun caller =>
    st <- query (fun st => st) ;;
    let '(valid, errors) :=
      validate_on_submit req (EditProfileForm_validate email_syntax_ok st form) in
    if valid then
      commit (update_user caller (set_email (data (editprofile_email form)))) ;;
      flash ProfileUpdated success ;;
      ret (redirect_url_for views_account)
    else ret (render_template edit_account_html (form_context errors))).

Definition change_password (req : Request) (form : ChangePasswordForm)
  : View Response :=
  login_required (fun caller =>
    let '(valid, errors) :=
      validate_on_submit req (ChangePasswordForm_validate form) in
    if valid then
      match check_password_hash (user_password_hash caller)
              (data (changepw_old_password form)) with
      | Some true =>
          new_hash <- hash_password (data (changepw_new_password form)) ;;
          commit (update_user caller (set_password_hash new_hash)) ;;
          flash PasswordChanged success ;;
          ret (redirect_url_for views_account)
      | Some false =>
          flash WrongCurrentPassword danger ;;
          ret (render_template change_password_html (form_context errors))
      | None => raise_uncaught        (* nothing catches the ValueError *)
      end
    else ret (render_template change_password_html (form_context errors))).

(** The routes of the blueprint: a call names a view and carries the form
    data and the path argument that the view takes. *)
Inductive Call :=
  | call_index
  | call_login (form : LoginForm)
  | call_register (form : RegisterForm)
  | call_logout
  | call_create_shop (form : ShopForm)
  | call_manage_shop (shop_id : Z)
  | call_shop (shop_id : Z)
  | call_add_product (form : ProductForm) (shop_id : Z)
  | call_product (form : CommentForm) (product_id : Z)
  | call_delete_product (product_id : Z)
  | call_search
  | call_account
  | call_edit_account (form : EditProfileForm)
  | call_change_password (form : ChangePasswordForm).

Definition dispatch (c : Call) (req : Request) : View Response :=
  match c with
  | call_index => index
  | call_login form => login req form
  | call_register form => register req form
  | call_logout => logout
  | call_create_shop form => create_shop req form
  | call_manage_shop id => manage_shop id
  | call_shop id => shop id
  | call_add_product form id => add_product req form id
  | call_product form id => product req form id
  | call_delete_product id => delete_product req id
  | call_search => search req
  | call_account => account
  | call_edit_account form => edit_account req form
  | call_change_password form => change_password req form
  end.

(** The databases that the views can produce from the empty one, whoever
    the callers are. *)
Inductive reachable : Store -> Prop :=
  | reachable_empty : reachable empty_store
  | reachable_call (c : Call) (req : Request) (w : World) :
      reachable (db w) -> reachable (db (snd (dispatch c req w))).

End Views.

(* ================================================================= *)
(** ** Concrete collaborators and worlds for the examples *)

Module Demo.

(** A stand-in for the syntax check: something, an at sign, something. *)
Definition email_ok (s : string) : bool :=
  Str.contains "@" s && negb (Str.startswith "@" s) && negb (Str.endswith "@" s).

(** A stand-in for bcrypt: it raises on more than 72 characters. *)
Definition digest (p : string) : string := ("$2b$" ++ p)%string.

Definition hash (p : string) : option string :=
  if 72 <? Str.len p then None else Some (digest p).

Definition check (h p : string) : option bool :=
  if 72 <? Str.len p then None else Some (String.eqb h (digest p)).

Definition secure (f : string) : string := f.

Definition alice : User := mkUser 1 "a@x.com" (digest "password1").
Definition bob : User := mkUser 2 "b@x.com" (digest "password2").

Definition alices_shop : Shop := mkShop 1 "Clothes" None 1.
Definition bobs_shop : Shop := mkShop 2 "Gadgets" None 2.

Definition price_10 : spec_float := S754_finite false 5629499534213120 (-49).

Definition red_shirt : Product :=
  mkProduct 1 "Red Shirt" "A shirt, dyed red." price_10 (Some "ab12_shirt.png") 1.

Definition blue_pants : Product :=
  mkProduct 2 "Blue Pants" "Trousers in blue." price_10 None 1.

Definition store : Store :=
  mkStore [alice; bob] [alices_shop; bobs_shop] [red_shirt; blue_pants]
    [mkComment 1 "Fits well, thanks." 2 1; mkComment 2 "Too long for me." 2 2;
     mkComment 3 "Bought a second one." 1 1].

Definition world (who : option Z) : World :=
  mkWorld store ["ab12_shirt.png"] who [].

Definition post : Request := mkRequest POST None None "c0ffee" false.

Definition get_q (q : string) : Request :=
  mkRequest GET None (Some q) "c0ffee" false.

(** A POST during which [os.remove] raises. *)
Definition post_remove_fails : Request :=
  mkRequest POST None None "c0ffee" true.

(** A password of 73 characters. *)
Definition long_password : string :=
  "correct horse battery staple correct horse battery staple correct horse b".

End Demo.

(* ================================================================= *)
(** ** Properties *)

(** The caller of the request is the stored user [u]. *)
Definition logged_in_as (w : World) (u : User) : Prop :=
  current_user w = (Returns (Some u), w).

(** The caller of the request is anonymous. *)
Definition anonymous (w : World) : Prop :=
  current_user w = (Returns None, w).

(** No two stored users share an email. *)
Definition emails_unique (st : Store) : Prop :=
  NoDup (map user_email (users st)).

(** No two stored shops share a name. *)
Definition shop_names_unique (st : Store) : Prop :=
  NoDup (map shop_name (shops st)).

(** The invariants of the data model: primary keys, emails and shop names
    are unique, and every reference names a stored parent. *)
Record store_ok (st : Store) : Prop := mk_store_ok
  { ok_user_ids : NoDup (map user_id (users st));
    ok_emails : emails_unique st;
    ok_shop_ids : NoDup (map shop_id (shops st));
    ok_shop_names : shop_names_unique st;
    ok_product_ids : NoDup (map product_id (products st));
    ok_comment_ids : NoDup (map comment_id (comments st));
    ok_shop_owner :
      forall s, In s (shops st) -> In (shop_owner_id s) (map user_id (users st));
    ok_product_shop :
      forall p, In p (products st) ->
                In (product_shop_id p) (map shop_id (shops st));
    ok_comment_product :
      forall c, In c (comments st) ->
                In (comment_product_id c) (map product_id (products st));
    ok_comment_author :
      forall c, In c (comments st) ->
                In (comment_author_id c) (map user_id (users st)) }.

(** The chain of the field [ShopForm.name]. *)
Definition name_errors (st : Store) (self_shop : option Shop)
  (d : option string) : list Message :=
  validate_field [DataRequired ShopNameRequired; Length 3 100 ShopNameLength]
    [validate_name st self_shop] [] d.

(** The query holds neither of the wildcards of [LIKE]. *)
Definition wildcard_free (q : string) : bool :=
  Str.all (fun c => negb (Ascii.eqb c "%") && negb (Ascii.eqb c "_")) q.

(** What the spec asks of a match: the text holds the query as a run of
    characters, case aside. *)
Definition icontains (q text : string) : bool :=
  Str.contains (Str.lower q) (Str.lower text).

(** Newest first: no later row has a larger id. *)
Definition newest_first (a b : Product) : Prop := product_id b <= product_id a.

Arguments Query.get : simpl never.
Arguments Query.first_by : simpl never.
Arguments Query.next_id : simpl never.
Arguments Query.delete_by : simpl never.
Arguments store_image : simpl never.
Arguments remove_image : simpl never.

Ltac each_row :=
  let R := fresh "row" in
  simpl; intros ? R; repeat destruct R as [<-|R]; [..|destruct R].

Ltac demo_hyp :=
  first [ reflexivity
        | discriminate
        | exact I
        | solve [intros; discriminate]
        | solve [unfold Str.len; simpl; lia]
        | solve [each_row; discriminate]
        | solve [simpl; auto 8]
        | solve [repeat constructor; simpl; intuition discriminate] ].

(** Discharges the premises of [H], one after the other, on the example. *)
Ltac feed H :=
  repeat match type of H with
         | ?A -> _ =>
             let a := fresh "premise" in
             assert (a : A) by demo_hyp; specialize (H a); clear a
         end;
  cbv zeta in H.

Ltac run_view :=
  unfold get_or_404, login_required, hash_password, os_remove;
  unfold try_except, bind, ret, query, commit, flash, abort, raise_uncaught,
    path_exists;
  cbv beta.

Lemma get_key {A} (key : A -> Z) rows id r :
  Query.get key rows id = Some r -> key r = id /\ In r rows.
Proof.
  unfold Query.get. intros H. apply find_some in H as [Hin Hk].
  apply Z.eqb_eq in Hk. auto.
Qed.

Lemma get_delete_by {A} (key : A -> Z) rows id :
  Query.get key (Query.delete_by key rows id) id = None.
Proof.
  unfold Query.get, Query.delete_by.
  induction rows as [|r rows IH]; simpl; [reflexivity|].
  destruct (key r =? id) eqn:E; simpl; [exact IH|].
  rewrite E. exact IH.
Qed.

Lemma in_delete_by {A} (col : A -> Z) rows id r :
  In r (Query.delete_by col rows id) <-> In r rows /\ col r <> id.
Proof.
  unfold Query.delete_by. rewrite filter_In, negb_true_iff, Z.eqb_neq.
  reflexivity.
Qed.

Lemma logged_in_user w u :
  logged_in_as w u -> Query.get user_id (users (db w)) (user_id u) = Some u.
Proof.
  unfold logged_in_as, current_user. intros H.
  destruct (session w) as [uid|]; [|discriminate].
  assert (E : Query.get user_id (users (db w)) uid = Some u) by congruence.
  destruct (get_key _ _ _ _ E) as [<- _]. exact E.
Qed.

(** What the image step of [delete_product] does to the upload folder and
    to the flashed messages; it touches nothing else and always returns. *)
Lemma remove_image_run req p w :
  exists up fl,
    remove_image req p w
    = (Returns tt, mkWorld (db w) up (session w) (flashed w ++ fl))
    /\ (up, fl)
       = if truthy (product_image p)
            && existsb (String.eqb (data (product_image p))) (uploads w)
         then if os_remove_raises req
              then (uploads w, [(warning, ImageRemoveError)])
              else (filter (fun n => negb (String.eqb n
                                             (data (product_image p))))
                      (uploads w), [])
         else (uploads w, []).
Proof.
  unfold remove_image. run_view. unfold remove_upload.
  destruct w as [st ups sess fls]. cbn [db uploads session flashed].
  destruct (truthy (product_image p)); cbn [andb]; cbv beta iota;
    cbn [db uploads session flashed].
  - destruct (existsb (String.eqb (data (product_image p))) ups);
      cbv beta iota.
    + destruct (os_remove_raises req); cbv beta iota;
        cbn [db uploads session flashed].
      * exists ups, [(warning, ImageRemoveError)]. split; reflexivity.
      * exists (filter (fun n => negb (String.eqb n (data (product_image p))))
                  ups), [].
        split; [now rewrite app_nil_r|reflexivity].
    + exists ups, []. split; [now rewrite app_nil_r|reflexivity].
  - exists ups, []. split; [now rewrite app_nil_r|reflexivity].
Qed.

(** A caller who is not the owner of the shop compares unequal to it. *)
Lemma not_owner_ne st s caller :
  shop_owner_id s <> user_id caller ->
  user_ne (shop_owner st s) caller = true.
Proof.
  intros Hne. unfold user_ne, shop_owner.
  destruct (Query.get user_id (users st) (shop_owner_id s)) as [o|] eqn:E;
    [|reflexivity].
  apply get_key in E as [E _]. apply negb_true_iff, Z.eqb_neq. congruence.
Qed.

Lemma owner_eq w s caller :
  logged_in_as w caller ->
  shop_owner_id s = user_id caller ->
  user_ne (shop_owner (db w) s) caller = false.
Proof.
  intros Hc Ho. unfold user_ne, shop_owner.
  rewrite Ho, (logged_in_user _ _ Hc).
  apply negb_false_iff, Z.eqb_refl.
Qed.

(** C10: a comment submitted for a product id that the store does not hold
    ends in NotFound (404) whatever the method, the form and the session
    are, and leaves the world, the comments included, as it was. *)
Theorem product_missing_not_found :
  forall (req : Request) (form : CommentForm) (pid : Z) (w : World),
    Query.get product_id (products (db w)) pid = None ->
    product req form pid w = (Abort 404, w).
Proof.
  intros req form pid w H. unfold product. run_view. rewrite H.
  reflexivity.
Qed.

Lemma product_missing_not_found_witness :
  product (Demo.post) (mkCommentForm (Some "A fine product indeed.")) 7
    (Demo.world None) = (Abort 404, Demo.world None)
  /\ product (Demo.post) (mkCommentForm (Some "A fine product indeed.")) 7
       (Demo.world (Some 2)) = (Abort 404, Demo.world (Some 2)).
Proof.
  split; apply product_missing_not_found; reflexivity.
Defined.

(** C8: on every world, a search whose query is empty (or absent) returns
    the empty list of products, as a rendered page and not as an error,
    and changes nothing. *)
Theorem search_empty_query :
  forall (req : Request) (w : World),
    args_q req = Some "" \/ args_q req = None ->
    search req w = (Returns (render_template search_html (search_context [] "")), w).
Proof.
  intros req w [H|H]; unfold search; rewrite H; reflexivity.
Qed.

Lemma search_empty_query_witness :
  search (Demo.get_q "") (Demo.world None)
  = (Returns (render_template search_html (search_context [] "")),
     Demo.world None).
Proof.
  apply search_empty_query. left. reflexivity.
Defined.

Lemma first_by_in {A} (col : A -> string) rows r :
  In r rows -> exists r', Query.first_by col rows (col r) = Some r'.
Proof.
  intros Hin. unfold Query.first_by.
  destruct (find (fun x => String.eqb (col x) (col r)) rows) as [r'|] eqn:E.
  - now exists r'.
  - pose proof (find_none _ _ E r Hin) as Hn. simpl in Hn.
    rewrite String.eqb_refl in Hn. discriminate.
Qed.

Lemma first_by_unique {A} (col : A -> string) rows r :
  NoDup (map col rows) -> In r rows -> Query.first_by col rows (col r) = Some r.
Proof.
  unfold Query.first_by.
  induction rows as [|x rows IH]; simpl; intros Hnd Hin; [contradiction|].
  inversion Hnd as [|? ? Hx Hnd']; subst.
  destruct Hin as [->|Hin].
  - now rewrite String.eqb_refl.
  - destruct (String.eqb (col x) (col r)) eqn:E; [|now apply IH].
    apply String.eqb_eq in E. exfalso. apply Hx. rewrite E.
    now apply in_map.
Qed.

Lemma first_by_none {A} (col : A -> string) rows v :
  (forall r, In r rows -> col r <> v) -> Query.first_by col rows v = None.
Proof.
  intros H. unfold Query.first_by.
  destruct (find (fun x => String.eqb (col x) v) rows) as [r|] eqn:E;
    [|reflexivity].
  apply find_some in E as [Hin Heq]. apply String.eqb_eq in Heq.
  now apply H in Hin.
Qed.

Lemma field_errors_report name l rest :
  l <> [] -> field_errors name (report name l ++ rest) = l.
Proof.
  destruct l as [|m l]; [congruence|]. intros _. simpl.
  destruct name; reflexivity.
Qed.

Lemma no_errors_report name l rest :
  l <> [] -> no_errors (report name l ++ rest) = false.
Proof.
  destruct l as [|m l]; [congruence|]. reflexivity.
Qed.

Lemma blank_false_nonempty s :
  Str.blank s = false -> negb (String.eqb s "") && negb (Str.blank s) = true.
Proof.
  intros H. rewrite H. destruct s; [discriminate H|reflexivity].
Qed.

Section ViewProperties.

Variable email_syntax_ok : string -> bool.
Variable generate_password_hash : string -> option string.
Variable check_password_hash : string -> string -> option bool.
Variable secure_filename : string -> string.

(** C6: for a logged-in caller, [manage_shop] and [add_product] on a stored
    shop that the caller does not own, and [delete_product] on a stored
    product of a shop that the caller does not own, end in Forbidden (403)
    and leave the world as it was; on an id that the store does not hold
    each of them ends in NotFound (404), an outcome other than Forbidden
    (403). *)
Theorem non_owner_forbidden :
  forall (w : World) (caller : User),
    logged_in_as w caller ->
    (forall (sid : Z) (s : Shop),
        Query.get shop_id (shops (db w)) sid = Some s ->
        shop_owner_id s <> user_id caller ->
        manage_shop sid w = (Abort 403, w)
        /\ forall (req : Request) (form : ProductForm),
             add_product secure_filename req form sid w = (Abort 403, w))
    /\ (forall (req : Request) (pid : Z) (p : Product) (ps : Shop),
           Query.get product_id (products (db w)) pid = Some p ->
           product_shop (db w) p = Some ps ->
           shop_owner_id ps <> user_id caller ->
           delete_product req pid w = (Abort 403, w))
    /\ (forall sid : Z,
           Query.get shop_id (shops (db w)) sid = None ->
           manage_shop sid w = (Abort 404, w)
           /\ forall (req : Request) (form : ProductForm),
                add_product secure_filename req form sid w = (Abort 404, w))
    /\ (forall (req : Request) (pid : Z),
           Query.get product_id (products (db w)) pid = None ->
           delete_product req pid w = (Abort 404, w)).
Proof.
  intros w caller Hc. unfold logged_in_as in Hc.
  split; [|split; [|split]].
  - intros sid s Hs Hso.
    pose proof (not_owner_ne (db w) s caller Hso) as Ns. split.
    + unfold manage_shop. run_view. rewrite Hc, Hs, Ns. reflexivity.
    + intros req form. unfold add_product. run_view.
      rewrite Hc, Hs, Ns. reflexivity.
  - intros req pid p ps Hp Hps Hpo.
    pose proof (not_owner_ne (db w) ps caller Hpo) as Np.
    unfold delete_product. run_view. rewrite Hc, Hp, Hps, Np. reflexivity.
  - intros sid Hs. split.
    + unfold manage_shop. run_view. rewrite Hc, Hs. reflexivity.
    + intros req form. unfold add_product. run_view.
      rewrite Hc, Hs. reflexivity.
  - intros req pid Hp. unfold delete_product. run_view.
    rewrite Hc, Hp. reflexivity.
Qed.

(** C4: when the logged-in caller owns the shop of an existing product,
    [delete_product] returns normally; afterwards no comment refers to the
    product, no product row has its id, the point lookup of the id ends in
    NotFound (404), and the comments and products of other ids, the users
    and the shops are as before. *)
Theorem delete_product_by_owner :
  forall (req : Request) (w : World) (caller : User) (pid : Z) (p : Product)
         (s : Shop),
    logged_in_as w caller ->
    Query.get product_id (products (db w)) pid = Some p ->
    product_shop (db w) p = Some s ->
    shop_owner_id s = user_id caller ->
    exists w' : World,
      delete_product req pid w
      = (Returns (redirect_url_for (views_manage_shop (shop_id s))), w')
      /\ (forall c, In c (comments (db w')) <->
                    In c (comments (db w)) /\ comment_product_id c <> pid)
      /\ (forall q, In q (products (db w')) <->
                    In q (products (db w)) /\ product_id q <> pid)
      /\ get_or_404 product_id products pid w' = (Abort 404, w')
      /\ users (db w') = users (db w)
      /\ shops (db w') = shops (db w).
Proof.
  intros req w caller pid p s Hc Hp Hps Ho.
  pose proof (owner_eq w s caller Hc Ho) as Eo.
  destruct (get_key _ _ _ _ Hp) as [Hid _].
  unfold logged_in_as in Hc.
  destruct (remove_image_run req p w) as (up & fl & Hrun & _).
  exists (mkWorld (delete_product_rows p (db w)) up (session w)
            ((flashed w ++ fl) ++ [(success, ProductDeleted)])).
  split.
  - unfold delete_product. run_view. rewrite Hc, Hp, Hps, Eo, Hrun.
    reflexivity.
  - simpl. rewrite Hid.
    split; [intro c; apply in_delete_by|].
    split; [intro q; apply in_delete_by|].
    split; [|split; reflexivity].
    run_view. unfold delete_product_rows. cbn [db products].
    rewrite Hid, get_delete_by. reflexivity.
Qed.

(** The email chain of [RegisterForm] and [EditProfileForm] on an email that
    a stored user has: the field gets an error, and it is the one of
    [validate_email] unless the email is blank. *)
Lemma email_chain_taken st e u :
  Query.first_by user_email (users st) e = Some u ->
  let errs :=
    validate_field (email_field_validators email_syntax_ok) [validate_email st]
      [] (Some e) in
  errs <> [] /\ (Str.blank e = false -> In EmailAlreadyRegistered errs).
Proof.
  intros Hu. unfold validate_field, email_field_validators. simpl.
  unfold Length.
  destruct (negb (String.eqb e "") && negb (Str.blank e)) eqn:Hreq.
  - rewrite Hu.
    destruct (email_syntax_ok e);
      destruct ((-1 <=? Str.len e) && ((100 =? -1) || (Str.len e <=? 100)));
      simpl; (split; [discriminate|intros _; auto 6]).
  - split; [discriminate|]. intros Hb.
    rewrite (blank_false_nonempty _ Hb) in Hreq. discriminate.
Qed.

(** The same chain on a well-formed email that no stored user has. *)
Lemma email_chain_fresh st e :
  Str.blank e = false -> email_syntax_ok e = true -> Str.len e <= 100 ->
  Query.first_by user_email (users st) e = None ->
  validate_field (email_field_validators email_syntax_ok) [validate_email st]
    [] (Some e) = [].
Proof.
  intros Hb Hs Hl Hn. unfold validate_field, email_field_validators. simpl.
  unfold Length.
  rewrite (blank_false_nonempty _ Hb), Hs, Hn.
  assert (H1 : (-1 <=? Str.len e) = true) by (apply Z.leb_le; unfold Str.len; lia).
  assert (H2 : (Str.len e <=? 100) = true) by (now apply Z.leb_le).
  rewrite H1, H2. reflexivity.
Qed.

(** C1: a registration submitted by an anonymous caller with the email of a
    stored user re-renders the form with an error on the email field (the
    "already registered" error of [validate_email] unless the email is
    blank) and leaves the world, the users included, as it was. *)
Theorem register_existing_email_rejected :
  forall (req : Request) (form : RegisterForm) (w : World) (u : User),
    anonymous w ->
    method req = POST ->
    In u (users (db w)) ->
    register_email form = Some (user_email u) ->
    let errors := RegisterForm_validate email_syntax_ok (db w) form in
    register email_syntax_ok generate_password_hash req form w
    = (Returns (render_template register_html (form_context errors)), w)
    /\ field_errors f_email errors <> []
    /\ (Str.blank (user_email u) = false ->
        In EmailAlreadyRegistered (field_errors f_email errors)).
Proof.
  intros req form w u Ha Hm Hin He errors.
  destruct (first_by_in user_email _ _ Hin) as [u' Hu'].
  destruct (email_chain_taken (db w) _ _ Hu') as [Hne Htaken].
  assert (Hf : field_errors f_email errors
               = validate_field (email_field_validators email_syntax_ok)
                   [validate_email (db w)] [] (Some (user_email u))).
  { unfold errors, RegisterForm_validate. rewrite He.
    now apply field_errors_report. }
  split; [|rewrite Hf; auto].
  assert (Hno : no_errors errors = false).
  { unfold errors, RegisterForm_validate. rewrite He.
    now apply no_errors_report. }
  unfold register. run_view. unfold anonymous in Ha. rewrite Ha. simpl.
  unfold validate_on_submit, is_submitted. rewrite Hm.
  fold errors. rewrite Hno. reflexivity.
Qed.

(** Whoever the caller and whatever the method, [register] with the email of
    a stored user leaves the database as it was. *)
Lemma register_existing_email_no_insert :
  forall (req : Request) (form : RegisterForm) (w : World) (u : User),
    In u (users (db w)) ->
    register_email form = Some (user_email u) ->
    db (snd (register email_syntax_ok generate_password_hash req form w)) = db w.
Proof.
  intros req form w u Hin He.
  destruct (first_by_in user_email _ _ Hin) as [u' Hu'].
  unfold register. run_view. unfold current_user.
  destruct (match session w with
            | Some uid => Query.get user_id (users (db w)) uid
            | None => None
            end); simpl; [reflexivity|].
  destruct (validate_on_submit req _) as [[|] errors]; [|reflexivity].
  unfold first_user_by_email. rewrite He, Hu'. reflexivity.
Qed.

Lemma get_update_user users0 caller f u :
  (forall x, user_id (f x) = user_id x) ->
  Query.get user_id users0 (user_id caller) = Some u ->
  Query.get user_id
    (map (fun x => if user_id x =? user_id caller then f x else x) users0)
    (user_id caller) = Some (f u).
Proof.
  intros Hf. unfold Query.get.
  induction users0 as [|x xs IH]; simpl; [discriminate|].
  destruct (user_id x =? user_id caller) eqn:E; simpl.
  - rewrite Hf, E. congruence.
  - rewrite E. exact IH.
Qed.

End ViewProperties.

(* ----------------------------------------------------------------- *)
(** *** Shop names *)

Lemma ShopForm_validate_name st self_shop f :
  field_errors f_name (ShopForm_validate st self_shop f)
  = name_errors st self_shop (shopform_name f).
Proof.
  unfold ShopForm_validate. fold (name_errors st self_shop (shopform_name f)).
  destruct (name_errors st self_shop (shopform_name f)) as [|m l] eqn:E.
  - simpl. destruct (report f_image _) as [|[n ms] r] eqn:R; [reflexivity|].
    unfold report in R. destruct (validate_field _ _ _ _); [discriminate|].
    inversion R; subst. reflexivity.
  - now apply field_errors_report.
Qed.

(** C7: over a store with unique shop names, [validate_name] raises on the
    name of a stored shop that is not the shop being edited (there is none
    when a shop is created), and passes on the edited shop's own name; the
    name field of the form then has an error in the first case and, when
    the own name is non-blank and 3 to 100 characters long, none in the
    second. *)
Theorem validate_name_self_exclusion :
  forall (st : Store) (edited : option Shop) (other own : Shop)
         (image : Upload) (errors : list Message),
    shop_names_unique st ->
    In other (shops st) ->
    match edited with
    | Some e => shop_id other <> shop_id e
    | None => True
    end ->
    In own (shops st) ->
    Str.blank (shop_name own) = false ->
    3 <= Str.len (shop_name own) <= 100 ->
    (validate_name st edited (Some (shop_name other)) errors
     = (errors, ValidationError ShopNameExists)
     /\ field_errors f_name
          (ShopForm_validate st edited
             (mkShopForm (Some (shop_name other)) image)) <> [])
    /\ (validate_name st (Some own) (Some (shop_name own)) errors
        = (errors, NoRaise)
        /\ field_errors f_name
             (ShopForm_validate st (Some own)
                (mkShopForm (Some (shop_name own)) image)) = []).
Proof.
  intros st edited other own image errors Hu Hother Hdiff Hown Hb [Hlo Hhi].
  pose proof (first_by_unique shop_name _ _ Hu Hother) as Fo.
  pose proof (first_by_unique shop_name _ _ Hu Hown) as Fw.
  assert (Ho : forall errs,
             validate_name st edited (Some (shop_name other)) errs
             = (errs, ValidationError ShopNameExists)).
  { intros errs. unfold validate_name. rewrite Fo.
    destruct edited as [e|]; [|reflexivity].
    apply Z.eqb_neq in Hdiff. now rewrite Hdiff. }
  assert (Hw : forall errs,
             validate_name st (Some own) (Some (shop_name own)) errs
             = (errs, NoRaise)).
  { intros errs. unfold validate_name. now rewrite Fw, Z.eqb_refl. }
  split; split; auto.
  - rewrite ShopForm_validate_name. unfold name_errors, validate_field.
    cbn [app run_validation_chain shopform_name]. unfold DataRequired, Length.
    destruct (negb (String.eqb (shop_name other) "")
              && negb (Str.blank (shop_name other)));
      cbv beta iota zeta; cbn [app]; [|discriminate].
    destruct ((3 <=? Str.len (shop_name other))
              && ((100 =? -1) || (Str.len (shop_name other) <=? 100)));
      rewrite Ho; cbn [app]; discriminate.
  - rewrite ShopForm_validate_name. unfold name_errors, validate_field.
    cbn [app run_validation_chain shopform_name]. unfold DataRequired, Length.
    rewrite (blank_false_nonempty _ Hb).
    apply Z.leb_le in Hlo, Hhi. cbv beta iota zeta. rewrite Hlo, Hhi.
    cbn [andb orb]. rewrite Bool.orb_true_r. now rewrite Hw.
Qed.

(* ----------------------------------------------------------------- *)
(** *** The product price *)

(** [float_0_01] is a normal binary64 number, and the one nearest to 1/100:
    [m * 2^(-59)] with [2^52 <= m < 2^53] and [|100 m - 2^59| <= 50]. *)
Lemma float_0_01_nearest :
  valid_binary 53 1024 float_0_01 = true
  /\ Z.abs (100 * 5764607523034235 - 2 ^ 59) <= 50.
Proof.
  split; [reflexivity|]. vm_compute. discriminate.
Qed.

Lemma SFcompare_finite_swap s1 m1 e1 s2 m2 e2 :
  SFcompare (S754_finite s2 m2 e2) (S754_finite s1 m1 e1)
  = option_map CompOpp (SFcompare (S754_finite s1 m1 e1) (S754_finite s2 m2 e2)).
Proof.
  pose proof (Pos.compare_cont_antisym m1 m2 Eq) as Hm. simpl in Hm.
  simpl. rewrite (Z.compare_antisym e1 e2), <- Hm.
  destruct s1, s2, (e1 ?= e2), (Pos.compare_cont Eq m1 m2); reflexivity.
Qed.

(** On values that are not NaN, [x < lo] fails exactly when [lo <= x]. *)
Lemma SFltb_SFleb lo x :
  is_nan x = false -> is_nan lo = false ->
  SFltb x lo = negb (SFleb lo x).
Proof.
  unfold SFltb, SFleb.
  destruct x as [sx|sx| |sx mx ex], lo as [sl|sl| |sl ml el];
    try discriminate; intros _ _;
    try (simpl; repeat match goal with b : bool |- _ => destruct b end;
         reflexivity).
  rewrite (SFcompare_finite_swap sx mx ex sl ml el). simpl.
  destruct sx, sl, (ex ?= el), (Pos.compare_cont Eq mx ml); reflexivity.
Qed.

(** C2, as the code has it: the price field is accepted exactly when the
    input parses to a float that is not NaN and is at least 0.01; the lower
    bound of [NumberRange(min=0.01)] is inclusive. *)
Theorem price_accepted_iff :
  forall i : FloatInput,
    price_errors i = [] <->
    exists x, i = FloatParsed x /\ is_nan x = false
              /\ SFleb float_0_01 x = true.
Proof.
  intros i. split.
  - destruct i as [| |x]; try discriminate.
    intros H. exists x. split; [reflexivity|].
    unfold price_errors, validate_field in H. simpl in H.
    destruct x as [s|s| |s m e]; try discriminate.
    + split; [reflexivity|]. now destruct s.
    + split; [reflexivity|].
      rewrite (SFltb_SFleb float_0_01 (S754_finite s m e)) in H
        by reflexivity.
      destruct (SFleb float_0_01 (S754_finite s m e)); [reflexivity|].
      discriminate.
  - intros (x & -> & Hn & Hle).
    unfold price_errors, validate_field. simpl.
    destruct x as [s|s| |s m e]; try discriminate.
    + now destruct s.
    + simpl. rewrite (SFltb_SFleb float_0_01 (S754_finite s m e))
        by reflexivity.
      now rewrite Hle.
Qed.

(** C2, the claim refuted: a price of exactly 0.01 is accepted although it
    is not strictly greater than 0.01. *)
Lemma price_0_01_accepted :
  price_errors (FloatParsed float_0_01) = []
  /\ SFltb float_0_01 float_0_01 = false.
Proof.
  split; reflexivity.
Qed.

(* ----------------------------------------------------------------- *)
(** *** Search *)

Lemma like_percent p s :
  Sql.like (String "%" p) s
  = Sql.like p s
    || match s with
       | EmptyString => false
       | String _ s' => Sql.like (String "%" p) s'
       end.
Proof.
  destruct s; reflexivity.
Qed.

Lemma like_any s : Sql.like "%" s = true.
Proof.
  induction s as [|c s IH]; [reflexivity|].
  rewrite like_percent, IH. apply orb_true_r.
Qed.

Lemma like_prefix q :
  wildcard_free q = true ->
  forall s, Sql.like (q ++ "%")%string s = Str.startswith q s.
Proof.
  induction q as [|c q IH]; intros Hq s.
  - apply like_any.
  - simpl in Hq. apply andb_true_iff in Hq as [Hc Hq].
    apply andb_true_iff in Hc as [Hp Hu].
    apply negb_true_iff in Hp, Hu.
    simpl. rewrite Hp. destruct s as [|d s]; [reflexivity|].
    rewrite Hu, (IH Hq). reflexivity.
Qed.

Lemma like_contains q :
  wildcard_free q = true ->
  forall s, Sql.like ("%" ++ q ++ "%")%string s = Str.contains q s.
Proof.
  intros Hq s. change ("%" ++ q ++ "%")%string with (String "%" (q ++ "%")).
  induction s as [|c s IH]; rewrite like_percent, (like_prefix q Hq).
  - destruct q; reflexivity.
  - simpl Str.contains. now rewrite IH.
Qed.

Lemma lower_app a b : Str.lower (a ++ b) = (Str.lower a ++ Str.lower b)%string.
Proof.
  induction a as [|c a IH]; simpl; [reflexivity|]. now rewrite IH.
Qed.

Lemma lower_char_wildcard c :
  negb (Ascii.eqb (Str.lower_char c) "%") && negb (Ascii.eqb (Str.lower_char c) "_")
  = negb (Ascii.eqb c "%") && negb (Ascii.eqb c "_").
Proof.
  destruct c as [[] [] [] [] [] [] [] []]; reflexivity.
Qed.

Lemma lower_wildcard_free q : wildcard_free (Str.lower q) = wildcard_free q.
Proof.
  unfold wildcard_free.
  induction q as [|c q IH]; simpl; [reflexivity|].
  now rewrite lower_char_wildcard, IH.
Qed.

(** On a query without wildcards the filter of [search] is the substring
    test, case aside, on the title or on the description. *)
Lemma search_filter_icontains q p :
  wildcard_free q = true ->
  search_filter q p
  = icontains q (product_title p) || icontains q (product_description p).
Proof.
  intros Hq. unfold search_filter, Sql.ilike, icontains.
  rewrite <- lower_wildcard_free in Hq.
  change ("%" ++ q ++ "%")%string with ("%" ++ (q ++ "%"))%string.
  rewrite !lower_app. change (Str.lower "%") with "%"%string.
  now rewrite !(like_contains _ Hq).
Qed.

(** X26: for a non-empty query without the wildcards [%] and [_], [search]
    returns exactly the products whose title or description holds the
    query, case aside, in the order of the table. *)
Lemma search_wildcard_free :
  forall (req : Request) (w : World) (q : string),
    args_q req = Some q -> q <> ""%string -> wildcard_free q = true ->
    search req w
    = (Returns (render_template search_html
                  (search_context
                     (filter (fun p => icontains q (product_title p)
                                       || icontains q (product_description p))
                        (products (db w))) q)), w).
Proof.
  intros req w q Hq Hne Hw. unfold search. rewrite Hq.
  apply String.eqb_neq in Hne. rewrite Hne. run_view. simpl.
  do 4 f_equal. apply filter_ext. intros p. now apply search_filter_icontains.
Qed.

(** The spec's example: "shirt" finds "Red Shirt" and not "Blue Pants". *)
Example search_shirt :
  search (Demo.get_q "shirt") (Demo.world None)
  = (Returns (render_template search_html
                (search_context [Demo.red_shirt] "shirt")), Demo.world None).
Proof. reflexivity. Qed.

(** C9, where the code departs from it: the query is pasted into the [LIKE]
    pattern as it is, so its [_] and [%] act as wildcards. The query ["_"]
    returns both products of the example store, though neither title nor
    description of either holds an underscore. *)
Theorem search_underscore_matches_all :
  search (Demo.get_q "_") (Demo.world None)
  = (Returns (render_template search_html
                (search_context [Demo.red_shirt; Demo.blue_pants] "_")),
     Demo.world None)
  /\ forall p, In p [Demo.red_shirt; Demo.blue_pants] ->
       icontains "_" (product_title p) = false
       /\ icontains "_" (product_description p) = false.
Proof.
  split; [reflexivity|].
  intros p [<-|[<-|[]]]; split; reflexivity.
Qed.

(* ----------------------------------------------------------------- *)
(** *** The theorems at work on the example store *)

Lemma non_owner_forbidden_witness :
  (manage_shop 1 (Demo.world (Some 2)) = (Abort 403, Demo.world (Some 2))
   /\ add_product Demo.secure Demo.post
        (mkProductForm (Some "Green Hat") (Some "A hat, dyed green.")
           (FloatParsed Demo.price_10) NoUpload) 1 (Demo.world (Some 2))
      = (Abort 403, Demo.world (Some 2))
   /\ delete_product Demo.post 1 (Demo.world (Some 2))
      = (Abort 403, Demo.world (Some 2)))
  /\ (manage_shop 7 (Demo.world (Some 2)) = (Abort 404, Demo.world (Some 2))
      /\ add_product Demo.secure Demo.post
           (mkProductForm (Some "Green Hat") (Some "A hat, dyed green.")
              (FloatParsed Demo.price_10) NoUpload) 7 (Demo.world (Some 2))
         = (Abort 404, Demo.world (Some 2))
      /\ delete_product Demo.post 7 (Demo.world (Some 2))
         = (Abort 404, Demo.world (Some 2))).
Proof.
  pose proof (non_owner_forbidden Demo.secure (Demo.world (Some 2)) Demo.bob)
    as H.
  feed H. destruct H as (Hshop & Hproduct & Hnoshop & Hnoproduct).
  pose proof (Hshop 1 Demo.alices_shop) as Hs. feed Hs.
  pose proof (Hproduct Demo.post 1 Demo.red_shirt Demo.alices_shop) as Hp.
  feed Hp.
  pose proof (Hnoshop 7) as Hn. feed Hn.
  pose proof (Hnoproduct Demo.post 7) as Hm. feed Hm.
  destruct Hs as (H1 & H2). destruct Hn as (H3 & H4).
  split; [split; [exact H1|split; [apply H2|exact Hp]]|].
  split; [exact H3|split; [apply H4|exact Hm]].
Defined.

Lemma delete_product_by_owner_witness :
  exists w' : World,
    delete_product Demo.post 1 (Demo.world (Some 1))
    = (Returns (redirect_url_for (views_manage_shop 1)), w')
    /\ (forall c, In c (comments (db w')) <->
                  In c (comments Demo.store) /\ comment_product_id c <> 1)
    /\ (forall q, In q (products (db w')) <->
                  In q (products Demo.store) /\ product_id q <> 1)
    /\ get_or_404 product_id products 1 w' = (Abort 404, w')
    /\ users (db w') = users Demo.store
    /\ shops (db w') = shops Demo.store.
Proof.
  apply (delete_product_by_owner Demo.post (Demo.world (Some 1)) Demo.alice 1
           Demo.red_shirt Demo.alices_shop); reflexivity.
Defined.

(** What the deletion leaves of the example store. *)
Example delete_red_shirt :
  delete_product Demo.post 1 (Demo.world (Some 1))
  = (Returns (redirect_url_for (views_manage_shop 1)),
     mkWorld
       (mkStore [Demo.alice; Demo.bob] [Demo.alices_shop; Demo.bobs_shop]
          [Demo.blue_pants] [mkComment 2 "Too long for me." 2 2])
       [] (Some 1) [(success, ProductDeleted)]).
Proof. reflexivity. Qed.

Lemma register_existing_email_rejected_witness :
  register Demo.email_ok Demo.hash Demo.post
    (mkRegisterForm (Some "a@x.com") (Some "password2") (Some "password2"))
    (Demo.world None)
  = (Returns (render_template register_html
                (form_context
                   (RegisterForm_validate Demo.email_ok Demo.store
                      (mkRegisterForm (Some "a@x.com") (Some "password2")
                         (Some "password2"))))),
     Demo.world None)
  /\ field_errors f_email
       (RegisterForm_validate Demo.email_ok Demo.store
          (mkRegisterForm (Some "a@x.com") (Some "password2")
             (Some "password2"))) <> []
  /\ (Str.blank "a@x.com" = false ->
      In EmailAlreadyRegistered
        (field_errors f_email
           (RegisterForm_validate Demo.email_ok Demo.store
              (mkRegisterForm (Some "a@x.com") (Some "password2")
                 (Some "password2"))))).
Proof.
  apply (register_existing_email_rejected Demo.email_ok Demo.hash Demo.post
           (mkRegisterForm (Some "a@x.com") (Some "password2")
              (Some "password2"))
           (Demo.world None) Demo.alice);
    try reflexivity. simpl. auto.
Defined.

(** The spec's example: the first registration of an email succeeds, the
    second one fails on the email field. *)
Example register_twice :
  let form p := mkRegisterForm (Some "a@x.com") (Some p) (Some p) in
  let w0 := mkWorld empty_store [] None [] in
  let w1 := mkWorld (mkStore [Demo.alice] [] [] []) [] None
              [(success, RegistrationDone)] in
  register Demo.email_ok Demo.hash Demo.post (form "password1") w0
  = (Returns (redirect_url_for views_login), w1)
  /\ register Demo.email_ok Demo.hash Demo.post (form "password2") w1
     = (Returns (render_template register_html
                   (form_context [(f_email, [EmailAlreadyRegistered])])), w1).
Proof. split; reflexivity. Qed.

Lemma validate_name_self_exclusion_witness :
  (validate_name Demo.store (Some Demo.bobs_shop) (Some "Clothes") []
   = ([], ValidationError ShopNameExists)
   /\ field_errors f_name
        (ShopForm_validate Demo.store (Some Demo.bobs_shop)
           (mkShopForm (Some "Clothes") NoUpload)) <> [])
  /\ (validate_name Demo.store (Some Demo.bobs_shop) (Some "Gadgets") []
      = ([], NoRaise)
      /\ field_errors f_name
           (ShopForm_validate Demo.store (Some Demo.bobs_shop)
              (mkShopForm (Some "Gadgets") NoUpload)) = []).
Proof.
  apply (validate_name_self_exclusion Demo.store (Some Demo.bobs_shop)
           Demo.alices_shop Demo.bobs_shop NoUpload []);
    try reflexivity.
  - unfold shop_names_unique. simpl.
    repeat constructor; simpl; intuition discriminate.
  - simpl. auto.
  - simpl. discriminate.
  - simpl. auto.
  - unfold Str.len. simpl. lia.
Defined.

(** Creating a shop under the name of a stored shop fails on the name. *)
Example create_shop_same_name :
  create_shop Demo.secure Demo.post (mkShopForm (Some "Clothes") NoUpload)
    (Demo.world (Some 2))
  = (Returns (render_template create_shop_html
                (form_context [(f_name, [ShopNameExists])])),
     Demo.world (Some 2)).
Proof. reflexivity. Qed.

(* ----------------------------------------------------------------- *)
(** *** What a passed validation tells *)

Lemma no_errors_report_app name l rest :
  no_errors (report name l ++ rest) = true -> l = [] /\ no_errors rest = true.
Proof.
  destruct l as [|m l]; simpl; [auto|discriminate].
Qed.

Lemma required_passed message d errs0 errs :
  DataRequired message d errs0 = (errs, NoRaise) ->
  exists s, d = Some s /\ Str.blank s = false /\ errs = errs0.
Proof.
  unfold DataRequired. destruct d as [s|]; [|discriminate].
  destruct (negb (String.eqb s "") && negb (Str.blank s)) eqn:E;
    [|discriminate].
  intros H. inversion H; subst. exists s. repeat split.
  apply andb_true_iff in E as [_ E]. now apply negb_true_iff in E.
Qed.

Lemma app_singleton_not_nil {A} (l : list A) x : l ++ [x] <> [].
Proof. destruct l; discriminate. Qed.

Section ValidationFacts.

Variable email_syntax_ok : string -> bool.

(** The email field of [RegisterForm] and [EditProfileForm] is free of
    errors exactly when the email is present, not blank, well-formed, at
    most 100 characters long and not the email of a stored user. *)
Lemma email_chain_ok_iff st d :
  validate_field (email_field_validators email_syntax_ok) [validate_email st]
    [] d = []
  <-> exists e, d = Some e /\ Str.blank e = false /\ email_syntax_ok e = true
                /\ Str.len e <= 100
                /\ Query.first_by user_email (users st) e = None.
Proof.
  split.
  - unfold validate_field, email_field_validators.
    cbn [app run_validation_chain].
    destruct (DataRequired EmailRequired d []) as [errs [|m|m]] eqn:R;
      try (intros H; now apply app_singleton_not_nil in H).
    + apply required_passed in R as (e & -> & Hb & ->).
      unfold Email, Length, validate_email. cbv zeta.
      destruct (email_syntax_ok e) eqn:S;
        destruct ((-1 <=? Str.len e) && ((100 =? -1) || (Str.len e <=? 100)))
          eqn:L;
        destruct (Query.first_by user_email (users st) e) eqn:F;
        cbn [app]; intros H; try discriminate H.
      exists e. apply andb_true_iff in L as [_ L]. simpl in L.
      apply Z.leb_le in L. auto.
    + unfold DataRequired in R. destruct d as [s|]; [|discriminate].
      destruct (negb (String.eqb s "") && negb (Str.blank s)); discriminate.
  - intros (e & -> & Hb & Hs & Hl & Hn).
    now apply email_chain_fresh.
Qed.

(** The name field of [ShopForm], when no shop is being edited, is free of
    errors exactly when the name is present, not blank, 3 to 100 characters
    long and not the name of a stored shop. *)
Lemma name_chain_ok_iff st d :
  name_errors st None d = []
  <-> exists n, d = Some n /\ Str.blank n = false /\ 3 <= Str.len n <= 100
                /\ Query.first_by shop_name (shops st) n = None.
Proof.
  unfold name_errors, validate_field. cbn [app run_validation_chain]. split.
  - destruct (DataRequired ShopNameRequired d []) as [errs [|m|m]] eqn:R;
      try (intros H; now apply app_singleton_not_nil in H).
    + apply required_passed in R as (n & -> & Hb & ->).
      unfold Length, validate_name. cbv zeta.
      destruct ((3 <=? Str.len n) && ((100 =? -1) || (Str.len n <=? 100)))
        eqn:L;
        destruct (Query.first_by shop_name (shops st) n) eqn:F;
        cbn [app]; intros H; try discriminate H.
      exists n. apply andb_true_iff in L as [L1 L2]. simpl in L2.
      apply Z.leb_le in L1, L2. auto.
    + unfold DataRequired in R. destruct d as [s|]; [|discriminate].
      destruct (negb (String.eqb s "") && negb (Str.blank s)); discriminate.
  - intros (n & -> & Hb & [Hlo Hhi] & Hn).
    unfold DataRequired, Length, validate_name. cbv zeta.
    rewrite (blank_false_nonempty _ Hb), Hn.
    apply Z.leb_le in Hlo, Hhi. rewrite Hlo, Hhi. reflexivity.
Qed.

End ValidationFacts.

(* ----------------------------------------------------------------- *)
(** *** The invariants of the data model *)

Lemma fold_max_ge {A} (key : A -> Z) rows r :
  In r rows -> key r <= fold_right (fun r m => Z.max (key r) m) 0 rows.
Proof.
  induction rows as [|x rows IH]; simpl; [contradiction|].
  intros [->|Hin]; [lia|]. specialize (IH Hin). lia.
Qed.

Lemma next_id_fresh {A} (key : A -> Z) rows :
  ~ In (Query.next_id key rows) (map key rows).
Proof.
  intros Hin. apply in_map_iff in Hin as (r & Hk & Hr).
  pose proof (fold_max_ge key rows r Hr) as Hle.
  unfold Query.next_id in Hk. lia.
Qed.

Lemma NoDup_snoc {A} (l : list A) x :
  NoDup l -> ~ In x l -> NoDup (l ++ [x]).
Proof.
  induction l as [|a l IH]; simpl; intros Hnd Hx.
  - constructor; [intros []|constructor].
  - inversion Hnd as [|? ? Ha Hl]; subst. constructor.
    + rewrite in_app_iff. simpl. intuition.
    + apply IH; intuition.
Qed.

Lemma first_by_none_not_in {A} (col : A -> string) rows v :
  Query.first_by col rows v = None -> ~ In v (map col rows).
Proof.
  intros Hn Hin. apply in_map_iff in Hin as (r & Hc & Hr).
  destruct (first_by_in col rows r Hr) as [r' Hr']. congruence.
Qed.

Lemma map_key_update (caller : User) (f : User -> User) l :
  (forall x, user_id (f x) = user_id x) ->
  map user_id (map (fun x => if user_id x =? user_id caller then f x else x) l)
  = map user_id l.
Proof.
  intros Hf. induction l as [|x l IH]; simpl; [reflexivity|].
  rewrite IH. destruct (user_id x =? user_id caller); now rewrite ?Hf.
Qed.

Lemma map_email_update_hash (caller : User) h l :
  map user_email
    (map (fun x => if user_id x =? user_id caller
                   then set_password_hash h x else x) l)
  = map user_email l.
Proof.
  induction l as [|x l IH]; simpl; [reflexivity|].
  rewrite IH. now destruct (user_id x =? user_id caller).
Qed.

Lemma in_email_update (caller : User) e l a :
  In a (map user_email
          (map (fun x => if user_id x =? user_id caller
                         then set_email e x else x) l)) ->
  a = e \/ In a (map user_email l).
Proof.
  induction l as [|x l IH]; simpl; [contradiction|].
  intros [H|H].
  - destruct (user_id x =? user_id caller); simpl in H; auto.
  - destruct (IH H); auto.
Qed.

Lemma update_no_match (caller : User) (f : User -> User) l :
  ~ In (user_id caller) (map user_id l) ->
  map (fun x => if user_id x =? user_id caller then f x else x) l = l.
Proof.
  induction l as [|x l IH]; simpl; intros Hn; [reflexivity|].
  destruct (user_id x =? user_id caller) eqn:E.
  - apply Z.eqb_eq in E. intuition.
  - rewrite IH; intuition.
Qed.

Lemma NoDup_email_update (caller : User) e l :
  NoDup (map user_id l) -> NoDup (map user_email l) ->
  ~ In e (map user_email l) ->
  NoDup (map user_email
           (map (fun x => if user_id x =? user_id caller
                          then set_email e x else x) l)).
Proof.
  induction l as [|x l IH]; simpl; intros Hid Hem He; [constructor|].
  inversion Hid as [|? ? Hx Hid']; inversion Hem as [|? ? Hy Hem']; subst.
  destruct (user_id x =? user_id caller) eqn:E.
  - apply Z.eqb_eq in E. rewrite E in Hx.
    rewrite (update_no_match caller (set_email e) l Hx).
    simpl. constructor; intuition.
  - constructor; [|apply IH; intuition].
    intros Hin. apply in_email_update in Hin as [Heq|Hin]; intuition.
Qed.

Section StoreChanges.

Variable st : Store.
Hypothesis Hok : store_ok st.

Lemma add_user_ok e h :
  Query.first_by user_email (users st) e = None -> store_ok (add_user e h st).
Proof.
  intros Hn. destruct Hok. constructor; simpl; auto.
  - rewrite map_app. simpl. apply NoDup_snoc; auto. apply next_id_fresh.
  - unfold emails_unique. simpl. rewrite map_app. simpl.
    apply NoDup_snoc; auto. now apply first_by_none_not_in.
  - intros s Hs. rewrite map_app, in_app_iff. auto.
  - intros c Hc. rewrite map_app, in_app_iff. auto.
Qed.

Lemma add_shop_ok n owner image :
  Query.first_by shop_name (shops st) n = None ->
  In (user_id owner) (map user_id (users st)) ->
  store_ok (add_shop n owner image st).
Proof.
  intros Hn Ho. destruct Hok. constructor; simpl; auto.
  - rewrite map_app. simpl. apply NoDup_snoc; auto. apply next_id_fresh.
  - unfold shop_names_unique. simpl. rewrite map_app. simpl.
    apply NoDup_snoc; auto. now apply first_by_none_not_in.
  - intros s Hs. apply in_app_iff in Hs as [Hs|[<-|[]]]; auto.
  - intros p Hp. rewrite map_app, in_app_iff. auto.
Qed.

Lemma add_product_row_ok form image s :
  In s (shops st) -> store_ok (add_product_row form image s st).
Proof.
  intros Hs. destruct Hok. constructor; simpl; auto.
  - rewrite map_app. simpl. apply NoDup_snoc; auto. apply next_id_fresh.
  - intros p Hp. apply in_app_iff in Hp as [Hp|[<-|[]]]; auto.
    simpl. now apply in_map.
  - intros c Hc. rewrite map_app, in_app_iff. auto.
Qed.

Lemma add_comment_ok text author p :
  In p (products st) -> In (user_id author) (map user_id (users st)) ->
  store_ok (add_comment text author p st).
Proof.
  intros Hp Ha. destruct Hok. constructor; simpl; auto.
  - rewrite map_app. simpl. apply NoDup_snoc; auto. apply next_id_fresh.
  - intros c Hc. apply in_app_iff in Hc as [Hc|[<-|[]]]; auto.
    simpl. now apply in_map.
  - intros c Hc. apply in_app_iff in Hc as [Hc|[<-|[]]]; auto.
Qed.

Lemma NoDup_map_filter {A B} (f : A -> B) (keep : A -> bool) l :
  NoDup (map f l) -> NoDup (map f (filter keep l)).
Proof.
  induction l as [|x l IH]; simpl; intros Hnd; [constructor|].
  inversion Hnd as [|? ? Hx Hl]; subst.
  destruct (keep x); simpl; [constructor|]; auto.
  intros Hin. apply Hx. apply in_map_iff in Hin as (y & Hy & Hf).
  apply filter_In in Hf as [Hf _]. rewrite <- Hy. now apply in_map.
Qed.

Lemma delete_product_rows_ok p : store_ok (delete_product_rows p st).
Proof.
  destruct Hok as [? ? ? ? ? ? ? ? Hcp ?]. constructor; simpl; auto.
  - now apply NoDup_map_filter.
  - now apply NoDup_map_filter.
  - intros q Hq. apply in_delete_by in Hq as [Hq _]. auto.
  - intros c Hc. apply in_delete_by in Hc as [Hc Hne].
    specialize (Hcp c Hc).
    apply in_map_iff in Hcp as (q & Hq & Hin).
    apply in_map_iff. exists q. split; [exact Hq|].
    apply in_delete_by. split; [exact Hin|congruence].
  - intros c Hc. apply in_delete_by in Hc as [Hc _]. auto.
Qed.

Lemma update_email_ok caller e :
  Query.first_by user_email (users st) e = None ->
  store_ok (update_user caller (set_email e) st).
Proof.
  intros Hn. destruct Hok. constructor; simpl; auto;
    rewrite ?map_key_update by reflexivity; auto.
  unfold emails_unique. simpl.
  apply NoDup_email_update; auto. now apply first_by_none_not_in.
Qed.

Lemma update_hash_ok caller h :
  store_ok (update_user caller (set_password_hash h) st).
Proof.
  destruct Hok. constructor; simpl; auto;
    rewrite ?map_key_update by reflexivity; auto.
  unfold emails_unique. simpl. now rewrite map_email_update_hash.
Qed.

End StoreChanges.

Ltac view_cases :=
  repeat (simpl;
          match goal with
          | |- context [match ?x with _ => _ end] =>
              lazymatch x with
              | context [match _ with _ => _ end] => fail
              | _ => destruct x eqn:?
              end
          end);
  simpl.

Section Preservation.

Variable email_syntax_ok : string -> bool.
Variable generate_password_hash : string -> option string.
Variable check_password_hash : string -> string -> option bool.
Variable secure_filename : string -> string.

Lemma store_image_cases req image w :
  (exists r up,
     store_image secure_filename req image w
     = (Returns r, mkWorld (db w) up (session w) (flashed w)))
  \/ store_image secure_filename req image w = (Uncaught, w).
Proof.
  unfold store_image, bind, save_upload, ret, raise_uncaught.
  destruct w as [st ups sess fls].
  destruct image as [|text|filename]; cbn [Upload_truthy].
  - left. eauto.
  - destruct (negb (String.eqb text "")); [right; reflexivity|left; eauto].
  - destruct (negb (String.eqb filename "")); left; eauto.
Qed.

Lemma register_preserves_ok req form w :
  store_ok (db w) ->
  store_ok (db (snd (register email_syntax_ok generate_password_hash req form w))).
Proof.
  intros Hok. unfold register, validate_on_submit, is_submitted, current_user.
  run_view. view_cases; auto; apply add_user_ok; auto;
    match goal with
    | H : no_errors (RegisterForm_validate _ _ _) = true |- _ =>
        apply no_errors_report_app in H as [H _];
        apply email_chain_ok_iff in H as (e & He & _ & _ & _ & Hn)
    end;
    rewrite He; exact Hn.
Qed.

Lemma edit_account_preserves_ok req form w :
  store_ok (db w) ->
  store_ok (db (snd (edit_account email_syntax_ok req form w))).
Proof.
  intros Hok.
  unfold edit_account, validate_on_submit, is_submitted, current_user.
  run_view. view_cases; auto; apply update_email_ok; auto;
    match goal with
    | H : no_errors (EditProfileForm_validate _ _ _) = true |- _ =>
        unfold EditProfileForm_validate in H;
        rewrite <- (app_nil_r (report f_email _)) in H;
        apply no_errors_report_app in H as [H _];
        apply email_chain_ok_iff in H as (e & He & _ & _ & _ & Hn)
    end;
    rewrite He; exact Hn.
Qed.

Lemma change_password_preserves_ok req form w :
  store_ok (db w) ->
  store_ok (db (snd (change_password generate_password_hash
                       check_password_hash req form w))).
Proof.
  intros Hok.
  unfold change_password, validate_on_submit, is_submitted, current_user.
  run_view. view_cases; auto; now apply update_hash_ok.
Qed.

Lemma create_shop_preserves_ok req form w :
  store_ok (db w) ->
  store_ok (db (snd (create_shop secure_filename req form w))).
Proof.
  intros Hok.
  unfold create_shop, validate_on_submit, is_submitted.
  run_view. unfold current_user.
  destruct (session w) as [uid|]; simpl; auto.
  destruct (Query.get user_id (users (db w)) uid) as [caller|] eqn:G;
    simpl; auto.
  destruct (method req); simpl; auto.
  destruct (no_errors (ShopForm_validate (db w) None form)) eqn:V; simpl; auto.
  destruct (store_image_cases req (shopform_image form) w)
    as [(r & up & Hs)|Hs]; rewrite Hs; simpl; auto.
  apply no_errors_report_app in V as [V _].
  apply name_chain_ok_iff in V as (n & He & _ & _ & Hn).
  apply add_shop_ok; auto.
  - now rewrite He.
  - apply get_key in G as [_ Hin]. now apply in_map.
Qed.

Lemma add_product_preserves_ok req form sid w :
  store_ok (db w) ->
  store_ok (db (snd (add_product secure_filename req form sid w))).
Proof.
  intros Hok.
  unfold add_product, validate_on_submit, is_submitted.
  run_view. unfold current_user.
  destruct (session w) as [uid|]; simpl; auto.
  destruct (Query.get user_id (users (db w)) uid) as [caller|]; simpl; auto.
  destruct (Query.get shop_id (shops (db w)) sid) as [s|] eqn:G; simpl; auto.
  destruct (user_ne (shop_owner (db w) s) caller); simpl; auto.
  destruct (method req); simpl; auto.
  destruct (no_errors (ProductForm_validate form)); simpl; auto.
  destruct (store_image_cases req (productform_image form) w)
    as [(r & up & Hs)|Hs]; rewrite Hs; simpl; auto.
  apply add_product_row_ok; auto. now apply get_key in G.
Qed.

Lemma product_preserves_ok req form pid w :
  store_ok (db w) -> store_ok (db (snd (product req form pid w))).
Proof.
  intros Hok.
  unfold product, validate_on_submit, is_submitted.
  run_view. unfold current_user.
  destruct (Query.get product_id (products (db w)) pid) as [p|] eqn:G;
    simpl; auto.
  destruct (method req); simpl; auto.
  destruct (no_errors (CommentForm_validate form)); simpl; auto.
  destruct (session w) as [uid|]; simpl; auto.
  destruct (Query.get user_id (users (db w)) uid) as [caller|] eqn:U;
    simpl; auto.
  apply add_comment_ok; auto.
  - now apply get_key in G.
  - apply get_key in U as [_ Hin]. now apply in_map.
Qed.

Lemma delete_product_preserves_ok req pid w :
  store_ok (db w) -> store_ok (db (snd (delete_product req pid w))).
Proof.
  intros Hok. unfold delete_product. run_view. unfold current_user.
  destruct (session w) as [uid|]; simpl; auto.
  destruct (Query.get user_id (users (db w)) uid) as [caller|]; simpl; auto.
  destruct (Query.get product_id (products (db w)) pid) as [p|]; simpl; auto.
  destruct (product_shop (db w) p) as [s|]; simpl; auto.
  destruct (user_ne (shop_owner (db w) s) caller); simpl; auto.
  destruct (remove_image_run req p w) as (up & fl & -> & _). simpl.
  now apply delete_product_rows_ok.
Qed.

(** A view that only reads leaves the database as it is. *)
Lemma readers_keep_db c req w :
  match c with
  | call_index | call_login _ | call_logout | call_manage_shop _
  | call_shop _ | call_search | call_account => True
  | _ => False
  end ->
  db (snd (dispatch email_syntax_ok generate_password_hash check_password_hash
             secure_filename c req w)) = db w.
Proof.
  destruct c; intros H; try contradiction; clear H;
    unfold dispatch, index, login, logout, manage_shop, shop, search, account,
      validate_on_submit, is_submitted, current_user, login_user, logout_user;
    run_view; view_cases; reflexivity.
Qed.

(** Every call of a view keeps the invariants of the data model. *)
Theorem dispatch_preserves_ok c req w :
  store_ok (db w) ->
  store_ok
    (db (snd (dispatch email_syntax_ok generate_password_hash
                check_password_hash secure_filename c req w))).
Proof.
  intros Hok.
  destruct c;
    try (rewrite readers_keep_db by exact I; exact Hok); unfold dispatch.
  - now apply register_preserves_ok.
  - now apply create_shop_preserves_ok.
  - now apply add_product_preserves_ok.
  - now apply product_preserves_ok.
  - now apply delete_product_preserves_ok.
  - now apply edit_account_preserves_ok.
  - now apply change_password_preserves_ok.
Qed.

Lemma empty_store_ok : store_ok empty_store.
Proof.
  constructor; simpl; try constructor; intros ? [].
Qed.

(** X24: every database that the views can produce from the empty one
    satisfies the invariants of the data model: ids, emails and shop names
    are unique, and every shop, product and comment refers to a stored
    owner, shop, product and author. *)
Theorem reachable_store_ok st :
  reachable email_syntax_ok generate_password_hash check_password_hash
    secure_filename st ->
  store_ok st.
Proof.
  induction 1 as [|c req w _ IH]; [apply empty_store_ok|].
  now apply dispatch_preserves_ok.
Qed.

(** X25: what a login that does not succeed shows of the store.  For one
    submission by an anonymous caller on two worlds: two logins that return
    the page render the same page and flash the same messages, be the email
    stored or not.  For an anonymous caller the login ends in an uncaught
    error exactly when the submission is a POST that validates, the email
    is stored and the hasher raises on the password: that outcome does tell
    that the email is stored. *)
Theorem login_failure_outcomes :
  forall (req : Request) (form : LoginForm),
    (forall (w1 w2 : World) (t1 t2 : Template) (c1 c2 : Context),
        anonymous w1 -> anonymous w2 ->
        fst (login email_syntax_ok check_password_hash req form w1)
        = Returns (render_template t1 c1) ->
        fst (login email_syntax_ok check_password_hash req form w2)
        = Returns (render_template t2 c2) ->
        t1 = t2 /\ c1 = c2
        /\ exists fl,
             flashed (snd (login email_syntax_ok check_password_hash req form
                             w1))
             = flashed w1 ++ fl
             /\ flashed (snd (login email_syntax_ok check_password_hash req
                                form w2))
                = flashed w2 ++ fl)
    /\ (forall w : World,
          anonymous w ->
          (fst (login email_syntax_ok check_password_hash req form w)
           = Uncaught
           <-> method req = POST
               /\ no_errors (LoginForm_validate email_syntax_ok form) = true
               /\ exists u,
                    first_user_by_email (db w) (login_email form) = Some u
                    /\ check_password_hash (user_password_hash u)
                         (data (login_password form)) = None)).
Proof.
  intros req form. split.
  - intros w1 w2 t1 t2 c1 c2 A1 A2. unfold anonymous in A1, A2.
    unfold login, validate_on_submit, is_submitted. run_view.
    rewrite A1, A2. cbn [is_authenticated].
    destruct (method req); cbn [fst snd].
    + intros H1 H2. inversion H1; inversion H2; subst.
      repeat split. exists []. now rewrite !app_nil_r.
    + destruct (no_errors (LoginForm_validate email_syntax_ok form)).
      * destruct (first_user_by_email (db w1) (login_email form)) as [u1|];
          destruct (first_user_by_email (db w2) (login_email form)) as [u2|];
          repeat match goal with
                 | |- context [check_password_hash ?h ?p] =>
                     destruct (check_password_hash h p) as [[|]|]
                 end;
          unfold login_user; cbn [fst snd flashed]; intros H1 H2;
          try discriminate H1; try discriminate H2;
          try (destruct (truthy (args_next req)); discriminate);
          inversion H1; inversion H2; subst;
          (repeat split; eexists; split; reflexivity).
      * intros H1 H2. inversion H1; inversion H2; subst.
        repeat split. exists []. now rewrite !app_nil_r.
  - intros w A. unfold anonymous in A.
    unfold login, validate_on_submit, is_submitted. run_view.
    rewrite A. cbn [is_authenticated].
    destruct (method req); cbn [fst snd].
    + split; [discriminate|]. intros [H _]. discriminate H.
    + destruct (no_errors (LoginForm_validate email_syntax_ok form)).
      * destruct (first_user_by_email (db w) (login_email form)) as [u1|].
        -- destruct (check_password_hash (user_password_hash u1)
                       (data (login_password form))) as [[|]|] eqn:E;
             unfold login_user; cbn [fst snd].
           ++ split; [discriminate|].
              intros (_ & _ & u & Hu & Hc). congruence.
           ++ split; [discriminate|].
              intros (_ & _ & u & Hu & Hc). congruence.
           ++ split; [|reflexivity]. intros _.
              repeat split. exists u1. split; [reflexivity|exact E].
        -- cbn [fst snd]. split; [discriminate|].
           intros (_ & _ & u & Hu & _). discriminate Hu.
      * split; [discriminate|]. intros (_ & H & _). discriminate H.
Qed.

End Preservation.

(* ================================================================= *)
(** ** Further properties of the forms and the views *)

(* ----------------------------------------------------------------- *)
(** *** File names *)

Lemma contains_dot_cons c s :
  Str.contains "." (String c s) = Ascii.eqb "." c || Str.contains "." s.
Proof.
  simpl. now rewrite andb_true_r.
Qed.

Lemma after_last_dot_none s :
  after_last_dot s = None <-> Str.contains "." s = false.
Proof.
  induction s as [|c s IH]; [simpl; tauto|].
  rewrite contains_dot_cons. simpl after_last_dot.
  rewrite (Ascii.eqb_sym "." c).
  destruct (after_last_dot s) as [e|].
  - split; [discriminate|]. intros H. apply orb_false_iff in H as [_ H].
    apply IH in H. discriminate.
  - destruct (Ascii.eqb c "."); simpl.
    + split; discriminate.
    + destruct IH as [IH _]. split; auto.
Qed.

Lemma after_last_dot_app stem ext :
  Str.contains "." ext = false ->
  after_last_dot (stem ++ "." ++ ext)%string = Some ext.
Proof.
  intros Hn. induction stem as [|d stem IH]; simpl.
  - apply after_last_dot_none in Hn. now rewrite Hn.
  - simpl in IH. now rewrite IH.
Qed.

(** [after_last_dot] splits a name at its last dot. *)
Lemma after_last_dot_some s ext :
  after_last_dot s = Some ext
  <-> exists stem, s = (stem ++ "." ++ ext)%string
                   /\ Str.contains "." ext = false.
Proof.
  split.
  - revert ext. induction s as [|c s IH]; intros ext; [discriminate|].
    simpl. destruct (after_last_dot s) as [e|] eqn:E.
    + intros H. inversion H; subst e.
      destruct (IH ext eq_refl) as (stem & -> & Hn).
      exists (String c stem). auto.
    + destruct (Ascii.eqb c ".") eqn:D; [|discriminate].
      apply Ascii.eqb_eq in D. subst c. intros H. inversion H; subst.
      exists ""%string. split; [reflexivity|].
      now apply after_last_dot_none.
  - intros (stem & -> & Hn). now apply after_last_dot_app.
Qed.

Lemma allowed_file_ext filename ext :
  after_last_dot filename = Some ext ->
  In (Str.lower ext) ALLOWED_EXTENSIONS ->
  allowed_file filename = true.
Proof.
  intros E Hin. unfold allowed_file. rewrite E. apply andb_true_iff. split.
  - destruct (Str.contains "." filename) eqn:C; [reflexivity|].
    apply after_last_dot_none in C. congruence.
  - apply existsb_exists. exists (Str.lower ext). split; [exact Hin|].
    apply String.eqb_refl.
Qed.

(** X1: [allowed_file] accepts a name exactly when it reads stem, dot,
    extension, where the extension has no dot and is, case aside, one of
    png, jpg, jpeg and gif; a name without a dot is refused. *)
Theorem allowed_file_iff :
  forall filename : string,
    allowed_file filename = true
    <-> exists stem ext,
          filename = (stem ++ "." ++ ext)%string
          /\ Str.contains "." ext = false
          /\ In (Str.lower ext) ALLOWED_EXTENSIONS.
Proof.
  intros f. unfold allowed_file. split.
  - intros H. apply andb_true_iff in H as [_ H].
    destruct (after_last_dot f) as [ext|] eqn:E; [|discriminate].
    apply after_last_dot_some in E as (stem & -> & Hn).
    exists stem, ext. repeat split; auto.
    apply existsb_exists in H as (x & Hx & Heq).
    apply String.eqb_eq in Heq. now subst.
  - intros (stem & ext & -> & Hn & Hin).
    assert (E : after_last_dot (stem ++ "." ++ ext)%string = Some ext)
      by (apply after_last_dot_some; eauto).
    rewrite E. apply andb_true_iff. split.
    + destruct (Str.contains "." (stem ++ "." ++ ext)) eqn:C; [reflexivity|].
      apply after_last_dot_none in C. congruence.
    + apply existsb_exists. exists (Str.lower ext). split; [exact Hin|].
      apply String.eqb_refl.
Qed.

Lemma lower_char_dot c : Ascii.eqb (Str.lower_char c) "." = Ascii.eqb c ".".
Proof.
  destruct c as [[] [] [] [] [] [] [] []]; reflexivity.
Qed.

Lemma after_last_dot_lower s :
  after_last_dot (Str.lower s) = option_map Str.lower (after_last_dot s).
Proof.
  induction s as [|c s IH]; simpl; [reflexivity|].
  rewrite IH, lower_char_dot.
  destruct (after_last_dot s); simpl; [reflexivity|].
  now destruct (Ascii.eqb c ".").
Qed.

Lemma endswith_app p s :
  Str.endswith p s = true -> exists stem, s = (stem ++ p)%string.
Proof.
  induction s as [|c s IH]; simpl; intros H.
  - rewrite orb_false_r in H. apply String.eqb_eq in H. subst.
    now exists ""%string.
  - apply orb_true_iff in H as [H|H].
    + apply String.eqb_eq in H. subst. now exists ""%string.
    + destruct (IH H) as (stem & ->). now exists (String c stem).
Qed.

(** X2: a file name that the image field of [ShopForm] and [ProductForm]
    accepts is also accepted by [allowed_file]: the extensions of the forms
    are among [ALLOWED_EXTENSIONS]. *)
Theorem form_image_passes_allowed_file :
  forall filename : string,
    filename <> ""%string ->
    validate_field image_validators [] [] (FileUpload filename) = [] ->
    allowed_file filename = true.
Proof.
  intros f Hne H.
  unfold validate_field, image_validators, FileAllowed in H.
  cbn [app run_validation_chain] in H.
  apply String.eqb_neq in Hne. rewrite Hne in H.
  destruct (existsb _ _) eqn:Ex in H; [|discriminate H].
  apply existsb_exists in Ex as (x & Hx & He).
  apply endswith_app in He as (stem & He).
  assert (Hd : Str.contains "." x = false).
  { simpl in Hx. destruct Hx as [<-|[<-|[<-|[]]]]; reflexivity. }
  pose proof (after_last_dot_app stem x Hd) as Ha.
  change ("." ++ x)%string with (String "." x) in He.
  simpl in Ha. rewrite <- He, after_last_dot_lower in Ha.
  destruct (after_last_dot f) as [ext|] eqn:E; [|discriminate Ha].
  simpl in Ha. inversion Ha as [Hl].
  apply allowed_file_ext with (ext := ext); auto.
  rewrite Hl. simpl in Hx. simpl. tauto.
Qed.

(* ----------------------------------------------------------------- *)
(** *** What the forms accept *)

Lemma report_app_nil name l (rest : Errors) :
  report name l ++ rest = [] <-> l = [] /\ rest = [].
Proof.
  destruct l as [|m l]; simpl; [tauto|].
  split; [discriminate|]. intros [H _]. discriminate.
Qed.

Lemma report_nil name l : report name l = [] <-> l = [].
Proof.
  destruct l; simpl; [tauto|]. split; discriminate.
Qed.

Lemma required_cases message d errs0 :
  (exists s, d = Some s /\ Str.blank s = false
             /\ DataRequired message d errs0 = (errs0, NoRaise))
  \/ DataRequired message d errs0 = ([], StopValidation message).
Proof.
  unfold DataRequired. destruct d as [s|]; [|now right].
  destruct (negb (String.eqb s "") && negb (Str.blank s)) eqn:E; [|now right].
  left. exists s. apply andb_true_iff in E as [_ E].
  apply negb_true_iff in E. auto.
Qed.

Lemma required_iff message d :
  validate_field [DataRequired message] [] [] d = []
  <-> exists s, d = Some s /\ Str.blank s = false.
Proof.
  unfold validate_field. cbn [app run_validation_chain].
  destruct (required_cases message d []) as [(s & -> & Hb & R)|R]; rewrite R.
  - split; eauto.
  - split; [discriminate|]. intros (s & -> & Hb).
    unfold DataRequired in R. rewrite (blank_false_nonempty _ Hb) in R.
    discriminate.
Qed.

Lemma required_length_iff m1 lo hi m2 d :
  validate_field [DataRequired m1; Length lo hi m2] [] [] d = []
  <-> exists s, d = Some s /\ Str.blank s = false
                /\ lo <= Str.len s /\ (hi = -1 \/ Str.len s <= hi).
Proof.
  unfold validate_field. cbn [app run_validation_chain].
  destruct (required_cases m1 d []) as [(s & -> & Hb & R)|R]; rewrite R.
  - unfold Length. cbv zeta.
    destruct ((lo <=? Str.len s) && ((hi =? -1) || (Str.len s <=? hi))) eqn:L;
      cbn [app].
    + apply andb_true_iff in L as [L1 L2].
      apply Z.leb_le in L1. apply orb_true_iff in L2.
      rewrite Z.eqb_eq, Z.leb_le in L2. split; [|reflexivity].
      intros _. exists s. repeat split; auto.
    + split; [discriminate|]. intros (s' & Hs & _ & L1 & L2).
      inversion Hs; subst s'.
      apply Z.leb_le in L1. rewrite <- Z.eqb_eq, <- Z.leb_le in L2.
      apply orb_true_iff in L2. rewrite L1, L2 in L. discriminate.
  - split; [discriminate|]. intros (s & -> & Hb & _).
    unfold DataRequired in R. rewrite (blank_false_nonempty _ Hb) in R.
    discriminate.
Qed.

Lemma required_equal_iff m1 other m2 d :
  validate_field [DataRequired m1; EqualTo other m2] [] [] d = []
  <-> exists s, d = Some s /\ Str.blank s = false /\ other = Some s.
Proof.
  unfold validate_field. cbn [app run_validation_chain].
  destruct (required_cases m1 d []) as [(s & -> & Hb & R)|R]; rewrite R.
  - unfold EqualTo, Str.opt_eqb.
    destruct other as [o|]; [destruct (String.eqb s o) eqn:E|]; cbn [app].
    + apply String.eqb_eq in E. subst. split; [|reflexivity]. eauto.
    + split; [discriminate|]. intros (s' & Hs & _ & Ho).
      inversion Hs; inversion Ho; subst. rewrite String.eqb_refl in E.
      discriminate.
    + split; [discriminate|]. intros (s' & _ & _ & Ho). discriminate.
  - split; [discriminate|]. intros (s & -> & Hb & _).
    unfold DataRequired in R. rewrite (blank_false_nonempty _ Hb) in R.
    discriminate.
Qed.

Section FormFacts.

Variable email_syntax_ok : string -> bool.

(** X3: [RegisterForm] validates exactly when the email is present, not
    blank, well-formed, at most 100 characters long and not the email of a
    stored user, the password is present, not blank and at least 8
    characters long, and the confirmation is the same text. *)
Theorem RegisterForm_validate_iff :
  forall (st : Store) (f : RegisterForm),
    RegisterForm_validate email_syntax_ok st f = []
    <-> exists e p,
          register_email f = Some e
          /\ register_password f = Some p
          /\ register_confirm_password f = Some p
          /\ Str.blank e = false /\ email_syntax_ok e = true
          /\ Str.len e <= 100
          /\ Query.first_by user_email (users st) e = None
          /\ Str.blank p = false /\ 8 <= Str.len p.
Proof.
  intros st f. unfold RegisterForm_validate.
  rewrite !report_app_nil, report_nil, email_chain_ok_iff,
    required_length_iff, required_equal_iff.
  split.
  - intros ((e & He & Hb & Hs & Hl & Hn) & (p & Hp & Hpb & Hp8 & _)
            & (c & Hc & _ & Hpc)).
    exists e, p. rewrite Hp in Hpc. inversion Hpc; subst c. tauto.
  - intros (e & p & He & Hp & Hc & Hb & Hs & Hl & Hn & Hpb & Hp8).
    split; [|split].
    + exists e. tauto.
    + exists p. tauto.
    + exists p. rewrite Hp. tauto.
Qed.

(** X4: [ChangePasswordForm] validates exactly when the old password is
    present and not blank, the new one is present, not blank and at least 8
    characters long, and the confirmation is the same text as the new
    password; the old password is not compared with anything here. *)
Theorem ChangePasswordForm_validate_iff :
  forall f : ChangePasswordForm,
    ChangePasswordForm_validate f = []
    <-> exists old new,
          changepw_old_password f = Some old
          /\ changepw_new_password f = Some new
          /\ changepw_confirm_password f = Some new
          /\ Str.blank old = false
          /\ Str.blank new = false /\ 8 <= Str.len new.
Proof.
  intros f. unfold ChangePasswordForm_validate.
  rewrite !report_app_nil, report_nil, required_iff, required_length_iff,
    required_equal_iff.
  split.
  - intros ((o & Ho & Hob) & (n & Hn & Hnb & Hn8 & _) & (c & Hc & _ & Hnc)).
    exists o, n. rewrite Hn in Hnc. inversion Hnc; subst c. tauto.
  - intros (o & n & Ho & Hn & Hc & Hob & Hnb & Hn8).
    split; [|split].
    + exists o. tauto.
    + exists n. tauto.
    + exists n. rewrite Hn. tauto.
Qed.

(** X5: [ShopForm], when no shop is being edited, validates exactly when
    the name is present, not blank, 3 to 100 characters long and not the
    name of a stored shop, and the image, if a file with a name came, has a
    name that ends, case aside, in .jpg, .jpeg or .png; no image and a text
    in the place of the file both pass. *)
Theorem ShopForm_validate_iff :
  forall (st : Store) (f : ShopForm),
    ShopForm_validate st None f = []
    <-> (exists n,
           shopform_name f = Some n /\ Str.blank n = false
           /\ 3 <= Str.len n <= 100
           /\ Query.first_by shop_name (shops st) n = None)
        /\ (forall filename,
              shopform_image f = FileUpload filename ->
              filename <> ""%string ->
              exists x, In x ["jpg"; "jpeg"; "png"]
                        /\ Str.endswith ("." ++ x) (Str.lower filename) = true).
Proof.
  intros st f. unfold ShopForm_validate.
  fold (name_errors st None (shopform_name f)).
  rewrite report_app_nil, report_nil, name_chain_ok_iff.
  apply and_iff_compat_l.
  unfold validate_field, image_validators, FileAllowed.
  cbn [app run_validation_chain].
  destruct (shopform_image f) as [|text|img];
    [split; [discriminate|reflexivity]..|].
  destruct (String.eqb img "") eqn:E.
  - apply String.eqb_eq in E. split; [|reflexivity].
    intros _ filename Hf Hne. congruence.
  - destruct (existsb _ _) eqn:Ex.
    + split; [|reflexivity]. intros _ filename Hf _.
      inversion Hf; subst. now apply existsb_exists.
    + split; [discriminate|]. intros H.
      apply String.eqb_neq in E.
      destruct (H img eq_refl E) as (x & Hx & He).
      assert (Ht : existsb (fun x => Str.endswith ("." ++ x) (Str.lower img))
                     ["jpg"; "jpeg"; "png"] = true)
        by (apply existsb_exists; eauto).
      congruence.
Qed.

End FormFacts.

(* ----------------------------------------------------------------- *)
(** *** Accounts: register, log in, change the password, edit the email *)

Lemma first_by_snoc_new {A} (col : A -> string) rows r :
  Query.first_by col rows (col r) = None ->
  Query.first_by col (rows ++ [r]) (col r) = Some r.
Proof.
  unfold Query.first_by. intros Hn.
  induction rows as [|x rows IH]; simpl in *.
  - now rewrite String.eqb_refl.
  - destruct (String.eqb (col x) (col r)); [discriminate|]. now apply IH.
Qed.

Lemma get_update_other (caller : User) (f : User -> User) l k :
  (forall x, user_id (f x) = user_id x) ->
  k <> user_id caller ->
  Query.get user_id
    (map (fun x => if user_id x =? user_id caller then f x else x) l) k
  = Query.get user_id l k.
Proof.
  intros Hf Hk. unfold Query.get.
  induction l as [|x l IH]; simpl; [reflexivity|].
  destruct (user_id x =? user_id caller) eqn:E.
  - rewrite Hf. apply Z.eqb_eq in E.
    assert (Hx : (user_id x =? k) = false) by (apply Z.eqb_neq; congruence).
    now rewrite Hx.
  - destruct (user_id x =? k); [reflexivity|exact IH].
Qed.

Section Accounts.

Variable email_syntax_ok : string -> bool.
Variable generate_password_hash : string -> option string.
Variable check_password_hash : string -> string -> option bool.

Lemma LoginForm_validate_ok e p remember :
  Str.blank e = false -> email_syntax_ok e = true -> Str.blank p = false ->
  LoginForm_validate email_syntax_ok (mkLoginForm (Some e) (Some p) remember)
  = [].
Proof.
  intros He Hs Hp. unfold LoginForm_validate, validate_field.
  cbn [app run_validation_chain login_email login_password].
  unfold DataRequired, Email.
  now rewrite (blank_false_nonempty _ He), (blank_false_nonempty _ Hp), Hs.
Qed.

(** What [login] does for an anonymous caller whose submission passes the
    field checks. *)
Lemma login_validated req w e p remember :
  anonymous w -> method req = POST ->
  Str.blank e = false -> email_syntax_ok e = true -> Str.blank p = false ->
  login email_syntax_ok check_password_hash req
    (mkLoginForm (Some e) (Some p) remember) w
  = match Query.first_by user_email (users (db w)) e with
    | Some u =>
        match check_password_hash (user_password_hash u) p with
        | Some true =>
            (Returns (if truthy (args_next req)
                      then redirect (data (args_next req))
                      else redirect_url_for views_index),
             mkWorld (db w) (uploads w) (Some (user_id u)) (flashed w))
        | Some false =>
            (Returns (render_template login_html (form_context [])),
             mkWorld (db w) (uploads w) (session w)
               (flashed w ++ [(danger, WrongEmailOrPassword)]))
        | None => (Uncaught, w)
        end
    | None =>
        (Returns (render_template login_html (form_context [])),
         mkWorld (db w) (uploads w) (session w)
           (flashed w ++ [(danger, WrongEmailOrPassword)]))
    end.
Proof.
  intros Ha Hm He Hs Hp. unfold anonymous in Ha.
  unfold login, validate_on_submit, is_submitted. run_view.
  rewrite Ha. cbn [is_authenticated].
  rewrite Hm, (LoginForm_validate_ok e p remember He Hs Hp).
  cbn [no_errors first_user_by_email login_email login_password data].
  destruct (Query.first_by user_email (users (db w)) e) as [u|]; [|reflexivity].
  destruct (check_password_hash (user_password_hash u) p) as [[|]|];
    reflexivity.
Qed.

(** C5: the claim fails where the hasher raises.  [login] calls the hasher
    only when the email is stored and catches nothing, and [LoginForm] puts
    no upper bound on the password.  For an anonymous caller and a
    non-blank password: with the email of a stored user, when the hasher
    raises on the password (as bcrypt does on more than 72 bytes), the
    login ends in an uncaught error and nothing is flashed; with an email
    that no stored user has, the same password gets the page with the
    generic message.  The two failures differ, so the caller learns that
    the email is stored. *)
Theorem login_hasher_error_reveals_email :
  forall (req : Request) (w : World) (p : string) (remember : bool),
    anonymous w ->
    method req = POST ->
    Str.blank p = false ->
    (forall u : User,
        emails_unique (db w) ->
        In u (users (db w)) ->
        Str.blank (user_email u) = false ->
        email_syntax_ok (user_email u) = true ->
        check_password_hash (user_password_hash u) p = None ->
        login email_syntax_ok check_password_hash req
          (mkLoginForm (Some (user_email u)) (Some p) remember) w
        = (Uncaught, w))
    /\ (forall unknown : string,
          Str.blank unknown = false ->
          email_syntax_ok unknown = true ->
          (forall v, In v (users (db w)) -> user_email v <> unknown) ->
          login email_syntax_ok check_password_hash req
            (mkLoginForm (Some unknown) (Some p) remember) w
          = (Returns (render_template login_html (form_context [])),
             mkWorld (db w) (uploads w) (session w)
               (flashed w ++ [(danger, WrongEmailOrPassword)]))).
Proof.
  intros req w p remember Ha Hm Hp. split.
  - intros u Huniq Hin Hb Hs Hc.
    rewrite login_validated by assumption.
    rewrite (first_by_unique user_email _ _ Huniq Hin). now rewrite Hc.
  - intros unknown Hb Hs Hunk.
    rewrite login_validated by assumption.
    now rewrite (first_by_none user_email _ _ Hunk).
Qed.

(** X29: where the hasher answers, [login] does what is asked of it.  For
    an anonymous caller and submissions that pass the field checks of
    [LoginForm]: over a store with unique emails, the email of a stored
    user with a password that the hasher accepts logs that user in and
    redirects, and with a password that the hasher rejects the form is
    rendered again after flashing [WrongEmailOrPassword]; an email that no
    stored user has gives that same response and flash. *)
Theorem login_outcomes :
  forall (req : Request) (w : World),
    anonymous w ->
    method req = POST ->
    (forall (u : User) (good : LoginForm) (p_good : string),
        emails_unique (db w) ->
        In u (users (db w)) ->
        LoginForm_validate email_syntax_ok good = [] ->
        login_email good = Some (user_email u) ->
        login_password good = Some p_good ->
        check_password_hash (user_password_hash u) p_good = Some true ->
        login email_syntax_ok check_password_hash req good w
        = (Returns (if truthy (args_next req)
                    then redirect (data (args_next req))
                    else redirect_url_for views_index),
           mkWorld (db w) (uploads w) (Some (user_id u)) (flashed w)))
    /\ (forall (u : User) (bad : LoginForm) (p_bad : string),
          emails_unique (db w) ->
          In u (users (db w)) ->
          LoginForm_validate email_syntax_ok bad = [] ->
          login_email bad = Some (user_email u) ->
          login_password bad = Some p_bad ->
          check_password_hash (user_password_hash u) p_bad = Some false ->
          login email_syntax_ok check_password_hash req bad w
          = (Returns (render_template login_html (form_context [])),
             mkWorld (db w) (uploads w) (session w)
               (flashed w ++ [(danger, WrongEmailOrPassword)])))
    /\ (forall unknown : LoginForm,
          LoginForm_validate email_syntax_ok unknown = [] ->
          (forall v, In v (users (db w)) ->
                     login_email unknown <> Some (user_email v)) ->
          login email_syntax_ok check_password_hash req unknown w
          = (Returns (render_template login_html (form_context [])),
             mkWorld (db w) (uploads w) (session w)
               (flashed w ++ [(danger, WrongEmailOrPassword)]))).
Proof.
  intros req w Ha Hm. unfold anonymous in Ha.
  split; [|split].
  - intros u good p_good Huniq Hin Vg Eg Pg Cg.
    pose proof (first_by_unique user_email _ _ Huniq Hin) as Hfirst.
    unfold login. run_view. rewrite Ha. cbn [is_authenticated].
    unfold validate_on_submit, is_submitted. rewrite Hm, Vg.
    cbn [no_errors]. unfold first_user_by_email.
    rewrite Eg, Hfirst, Pg. cbn [data]. rewrite Cg. reflexivity.
  - intros u bad p_bad Huniq Hin Vb Eb Pb Cb.
    pose proof (first_by_unique user_email _ _ Huniq Hin) as Hfirst.
    unfold login. run_view. rewrite Ha. cbn [is_authenticated].
    unfold validate_on_submit, is_submitted. rewrite Hm, Vb.
    cbn [no_errors]. unfold first_user_by_email.
    rewrite Eb, Hfirst, Pb. cbn [data]. rewrite Cb. reflexivity.
  - intros unknown Vu Hunk.
    unfold login. run_view. rewrite Ha. cbn [is_authenticated].
    unfold validate_on_submit, is_submitted. rewrite Hm, Vu.
    cbn [no_errors]. unfold first_user_by_email.
    destruct (login_email unknown) as [e|] eqn:Ee; [|reflexivity].
    rewrite first_by_none; [reflexivity|].
    intros r Hr Heq. apply (Hunk r Hr). congruence.
Qed.

Lemma RegisterForm_validate_ok st e p :
  Str.blank e = false -> email_syntax_ok e = true -> Str.len e <= 100 ->
  Query.first_by user_email (users st) e = None ->
  Str.blank p = false -> 8 <= Str.len p ->
  RegisterForm_validate email_syntax_ok st
    (mkRegisterForm (Some e) (Some p) (Some p)) = [].
Proof.
  intros He Hs Hl Hn Hp H8. unfold RegisterForm_validate.
  cbn [register_email register_password register_confirm_password].
  rewrite (email_chain_fresh email_syntax_ok st e He Hs Hl Hn).
  rewrite (proj2 (required_length_iff PasswordRequired 8 (-1) PasswordTooShort
                    (Some p))) by eauto 6.
  rewrite (proj2 (required_equal_iff ConfirmRequired (Some p)
                    PasswordsMustMatch (Some p))) by eauto.
  reflexivity.
Qed.

(** What [register] does for an anonymous caller whose submission passes
    the checks of the form. *)
Lemma register_validated req w e p :
  anonymous w -> method req = POST ->
  Str.blank e = false -> email_syntax_ok e = true -> Str.len e <= 100 ->
  Query.first_by user_email (users (db w)) e = None ->
  Str.blank p = false -> 8 <= Str.len p ->
  register email_syntax_ok generate_password_hash req
    (mkRegisterForm (Some e) (Some p) (Some p)) w
  = match generate_password_hash p with
    | Some h =>
        (Returns (redirect_url_for views_login),
         mkWorld (add_user e h (db w)) (uploads w) (session w)
           (flashed w ++ [(success, RegistrationDone)]))
    | None =>
        (Returns (redirect_url_for views_register),
         mkWorld (db w) (uploads w) (session w)
           (flashed w ++ [(danger, RegistrationError)]))
    end.
Proof.
  intros Ha Hm He Hs Hl Hn Hp H8. unfold anonymous in Ha.
  unfold register, validate_on_submit, is_submitted. run_view.
  rewrite Ha. cbn [is_authenticated].
  rewrite Hm, (RegisterForm_validate_ok (db w) e p He Hs Hl Hn Hp H8).
  cbn [no_errors first_user_by_email register_email register_password data].
  rewrite Hn. now destruct (generate_password_hash p).
Qed.

Lemma session_none_anonymous w : session w = None -> anonymous w.
Proof.
  intros H. unfold anonymous, current_user. now rewrite H.
Qed.

(** X6: an anonymous caller registers a fresh, well-formed email with a
    non-blank password of at least 8 characters.  When the hasher returns a
    hash, there is exactly one new user row, with a fresh id and that hash,
    and the caller is sent to the login page; if the hasher accepts the
    password against that hash, a login with the same email and password
    then logs the new user in.  When the hasher raises (as bcrypt does on
    more than 72 bytes), the [except] branch flashes the registration error
    and sends the caller back to the registration page: nothing is
    stored. *)
Theorem register_then_login :
  forall (req : Request) (w : World) (e p : string) (remember : bool),
    session w = None ->
    method req = POST ->
    Str.blank e = false -> email_syntax_ok e = true -> Str.len e <= 100 ->
    (forall u, In u (users (db w)) -> user_email u <> e) ->
    Str.blank p = false -> 8 <= Str.len p ->
    (forall h : string,
        generate_password_hash p = Some h ->
        let new_user := mkUser (Query.next_id user_id (users (db w))) e h in
        exists w1 : World,
          register email_syntax_ok generate_password_hash req
            (mkRegisterForm (Some e) (Some p) (Some p)) w
          = (Returns (redirect_url_for views_login), w1)
          /\ users (db w1) = users (db w) ++ [new_user]
          /\ ~ In (user_id new_user) (map user_id (users (db w)))
          /\ (check_password_hash h p = Some true ->
              login email_syntax_ok check_password_hash req
                (mkLoginForm (Some e) (Some p) remember) w1
              = (Returns (if truthy (args_next req)
                          then redirect (data (args_next req))
                          else redirect_url_for views_index),
                 mkWorld (db w1) (uploads w1) (Some (user_id new_user))
                   (flashed w1))))
    /\ (generate_password_hash p = None ->
        register email_syntax_ok generate_password_hash req
          (mkRegisterForm (Some e) (Some p) (Some p)) w
        = (Returns (redirect_url_for views_register),
           mkWorld (db w) (uploads w) (session w)
             (flashed w ++ [(danger, RegistrationError)]))).
Proof.
  intros req w e p remember Hs Hm He Hok Hl Hfresh Hp H8.
  pose proof (first_by_none user_email _ _ Hfresh) as Hn.
  pose proof (session_none_anonymous w Hs) as Ha.
  pose proof (register_validated req w e p Ha Hm He Hok Hl Hn Hp H8) as Hr.
  split.
  - intros h Hh new_user. rewrite Hh in Hr.
    eexists. split; [exact Hr|]. split; [reflexivity|].
    split; [apply next_id_fresh|]. intros Hc.
    rewrite login_validated; auto;
      [|now apply session_none_anonymous].
    cbn [db add_user users].
    change e with (user_email new_user) at 1.
    rewrite first_by_snoc_new by exact Hn.
    cbn [user_password_hash new_user]. now rewrite Hc.
  - intros Hh. now rewrite Hh in Hr.
Qed.

Lemma first_by_map_email (g : User -> User) l v :
  (forall x, user_email (g x) = user_email x) ->
  Query.first_by user_email (map g l) v
  = option_map g (Query.first_by user_email l v).
Proof.
  intros Hg. unfold Query.first_by.
  induction l as [|x l IH]; simpl; [reflexivity|].
  rewrite Hg. now destruct (String.eqb (user_email x) v).
Qed.

Lemma logout_logged_in w u :
  logged_in_as w u ->
  logout w = (Returns (redirect_url_for views_index),
              mkWorld (db w) (uploads w) None (flashed w)).
Proof.
  unfold logged_in_as. intros Hc. unfold logout. run_view.
  now rewrite Hc.
Qed.

Lemma ChangePasswordForm_validate_ok old new :
  Str.blank old = false -> Str.blank new = false -> 8 <= Str.len new ->
  ChangePasswordForm_validate
    (mkChangePasswordForm (Some old) (Some new) (Some new)) = [].
Proof.
  intros Ho Hn H8. unfold ChangePasswordForm_validate.
  cbn [changepw_old_password changepw_new_password changepw_confirm_password].
  rewrite (proj2 (required_iff OldPasswordRequired (Some old))) by eauto.
  rewrite (proj2 (required_length_iff PasswordRequired 8 (-1) PasswordTooShort
                    (Some new))) by eauto 6.
  rewrite (proj2 (required_equal_iff ConfirmRequired (Some new)
                    PasswordsMustMatch (Some new))) by eauto.
  reflexivity.
Qed.

(** What [change_password] does for a logged-in caller whose submission
    passes the checks of the form. *)
Lemma change_password_validated req w caller old new :
  logged_in_as w caller -> method req = POST ->
  Str.blank old = false -> Str.blank new = false -> 8 <= Str.len new ->
  change_password generate_password_hash check_password_hash req
    (mkChangePasswordForm (Some old) (Some new) (Some new)) w
  = match check_password_hash (user_password_hash caller) old with
    | Some true =>
        match generate_password_hash new with
        | Some h =>
            (Returns (redirect_url_for views_account),
             mkWorld (update_user caller (set_password_hash h) (db w))
               (uploads w) (session w)
               (flashed w ++ [(success, PasswordChanged)]))
        | None => (Uncaught, w)
        end
    | Some false =>
        (Returns (render_template change_password_html (form_context [])),
         mkWorld (db w) (uploads w) (session w)
           (flashed w ++ [(danger, WrongCurrentPassword)]))
    | None => (Uncaught, w)
    end.
Proof.
  intros Hc Hm Ho Hn H8. unfold logged_in_as in Hc.
  unfold change_password, validate_on_submit, is_submitted. run_view.
  rewrite Hc, Hm, (ChangePasswordForm_validate_ok old new Ho Hn H8).
  cbn [no_errors changepw_old_password changepw_new_password data].
  destruct (check_password_hash (user_password_hash caller) old) as [[|]|];
    try reflexivity.
  now destruct (generate_password_hash new).
Qed.

(** X7: a logged-in caller gives a non-blank current password and a
    non-blank new one of at least 8 characters.  When the hasher accepts
    the current password and returns a hash of the new one, that hash is
    stored in the own row; after logging out, the own email with the new
    password logs the caller in again (if the hasher accepts it against the
    new hash), and with a password that the hasher rejects against the new
    hash the login fails.  When the hasher raises, on the current password
    or on the new one (as bcrypt does on more than 72 bytes), nothing
    catches it: the view ends in an uncaught error and nothing is stored or
    flashed. *)
Theorem change_password_then_login :
  forall (req : Request) (w : World) (caller : User)
         (old new : string) (remember : bool),
    logged_in_as w caller ->
    method req = POST ->
    Str.blank old = false -> Str.blank new = false -> 8 <= Str.len new ->
    (forall h : string,
        check_password_hash (user_password_hash caller) old = Some true ->
        generate_password_hash new = Some h ->
        let caller' := set_password_hash h caller in
        exists w1 w2 : World,
          change_password generate_password_hash check_password_hash req
            (mkChangePasswordForm (Some old) (Some new) (Some new)) w
          = (Returns (redirect_url_for views_account), w1)
          /\ Query.get user_id (users (db w1)) (user_id caller) = Some caller'
          /\ logout w1 = (Returns (redirect_url_for views_index), w2)
          /\ (emails_unique (db w) ->
              Str.blank (user_email caller) = false ->
              email_syntax_ok (user_email caller) = true ->
              (check_password_hash h new = Some true ->
               login email_syntax_ok check_password_hash req
                 (mkLoginForm (Some (user_email caller)) (Some new) remember)
                 w2
               = (Returns (if truthy (args_next req)
                           then redirect (data (args_next req))
                           else redirect_url_for views_index),
                  mkWorld (db w2) (uploads w2) (Some (user_id caller))
                    (flashed w2)))
              /\ (forall other : string,
                    Str.blank other = false ->
                    check_password_hash h other = Some false ->
                    login email_syntax_ok check_password_hash req
                      (mkLoginForm (Some (user_email caller)) (Some other)
                         remember) w2
                    = (Returns (render_template login_html (form_context [])),
                       mkWorld (db w2) (uploads w2) None
                         (flashed w2 ++ [(danger, WrongEmailOrPassword)])))))
    /\ (check_password_hash (user_password_hash caller) old = Some true ->
        generate_password_hash new = None ->
        change_password generate_password_hash check_password_hash req
          (mkChangePasswordForm (Some old) (Some new) (Some new)) w
        = (Uncaught, w))
    /\ (check_password_hash (user_password_hash caller) old = None ->
        change_password generate_password_hash check_password_hash req
          (mkChangePasswordForm (Some old) (Some new) (Some new)) w
        = (Uncaught, w)).
Proof.
  intros req w caller old new remember Hc Hm Ho Hn H8.
  pose proof (change_password_validated req w caller old new Hc Hm Ho Hn H8)
    as Hrun.
  split; [|split].
  2: { intros Cold Cnew. now rewrite Cold, Cnew in Hrun. }
  2: { intros Cold. now rewrite Cold in Hrun. }
  intros h Cold Chash caller'.
  rewrite Cold, Chash in Hrun.
  pose proof (logged_in_user _ _ Hc) as Hget.
  destruct (get_key _ _ _ _ Hget) as [_ Hin].
  set (upd := fun x : User =>
                if user_id x =? user_id caller
                then set_password_hash h x else x).
  set (w1 := mkWorld (update_user caller (set_password_hash h) (db w))
               (uploads w) (session w)
               (flashed w ++ [(success, PasswordChanged)])) in *.
  assert (Hget1 : Query.get user_id (users (db w1)) (user_id caller)
                  = Some caller').
  { unfold w1, update_user. cbn [db users].
    now apply get_update_user. }
  assert (Hc1 : logged_in_as w1 caller').
  { unfold logged_in_as, current_user in *. cbn [session w1].
    destruct (session w) as [uid|]; [|discriminate].
    assert (E : Query.get user_id (users (db w)) uid = Some caller)
      by congruence.
    apply get_key in E as [<- _]. now rewrite Hget1. }
  exists w1, (mkWorld (db w1) (uploads w1) None (flashed w1)).
  split; [exact Hrun|].
  split; [exact Hget1|].
  split; [now apply (logout_logged_in w1 caller')|].
  intros Hu He Hs.
  assert (Hfirst : Query.first_by user_email (users (db w1))
                     (user_email caller) = Some caller').
  { unfold w1, update_user. cbn [db users]. fold upd.
    rewrite (first_by_map_email upd).
    - rewrite (first_by_unique user_email _ _ Hu Hin). cbn [option_map].
      unfold upd. now rewrite Z.eqb_refl.
    - intros x. unfold upd. now destruct (user_id x =? user_id caller). }
  split.
  - intros Cnew.
    rewrite login_validated; auto; [|now apply session_none_anonymous].
    cbn [db uploads session flashed]. rewrite Hfirst.
    cbn [user_password_hash caller' set_password_hash user_id].
    now rewrite Cnew.
  - intros other Hob Cother.
    rewrite login_validated; auto; [|now apply session_none_anonymous].
    cbn [db uploads session flashed]. rewrite Hfirst.
    cbn [user_password_hash caller' set_password_hash user_id].
    now rewrite Cother.
Qed.

(** X8: whatever is submitted, [change_password] leaves the row of every
    user other than the caller, every email, and the shops, products and
    comments as they were; and unless the hasher accepts the old password
    (it rejects it, or it raises), the whole database. *)
Theorem change_password_scope :
  forall (req : Request) (form : ChangePasswordForm) (w : World)
         (caller : User),
    logged_in_as w caller ->
    let st' :=
      db (snd (change_password generate_password_hash check_password_hash req
                 form w)) in
    (forall k, k <> user_id caller ->
               Query.get user_id (users st') k
               = Query.get user_id (users (db w)) k)
    /\ map user_email (users st') = map user_email (users (db w))
    /\ shops st' = shops (db w)
    /\ products st' = products (db w)
    /\ comments st' = comments (db w)
    /\ (check_password_hash (user_password_hash caller)
          (data (changepw_old_password form)) <> Some true ->
        st' = db w).
Proof.
  intros req form w caller Hc st'. unfold logged_in_as in Hc.
  unfold st', change_password, validate_on_submit, is_submitted.
  run_view. rewrite Hc.
  destruct (method req); cbn [fst snd db]; try tauto.
  destruct (no_errors (ChangePasswordForm_validate form)); cbn [fst snd db];
    try tauto.
  destruct (check_password_hash (user_password_hash caller)
              (data (changepw_old_password form))) as [[|]|];
    cbn [fst snd db]; try tauto.
  destruct (generate_password_hash (data (changepw_new_password form)))
    as [h|]; cbn [fst snd db]; try tauto.
  unfold update_user. cbn [users shops products comments].
  repeat split; try congruence.
  - intros k Hk. now apply get_update_other.
  - apply map_email_update_hash.
Qed.

Lemma map_update_proj {B} (proj : User -> B) (caller : User)
  (f : User -> User) l :
  (forall x, proj (f x) = proj x) ->
  map proj (map (fun x => if user_id x =? user_id caller then f x else x) l)
  = map proj l.
Proof.
  intros Hf. induction l as [|x l IH]; simpl; [reflexivity|].
  rewrite IH. destruct (user_id x =? user_id caller); now rewrite ?Hf.
Qed.

Lemma NoDup_map_inj {A B} (f : A -> B) l a b :
  NoDup (map f l) -> In a l -> In b l -> f a = f b -> a = b.
Proof.
  induction l as [|x l IH]; simpl; intros Hnd Ha Hb Hf; [contradiction|].
  inversion Hnd as [|? ? Hx Hl]; subst.
  destruct Ha as [->|Ha], Hb as [->|Hb]; auto.
  - exfalso. apply Hx. rewrite Hf. now apply in_map.
  - exfalso. apply Hx. rewrite <- Hf. now apply in_map.
Qed.

Lemma first_by_after_set_email (caller : User) e l :
  Query.get user_id l (user_id caller) = Some caller ->
  (forall u, In u l -> user_email u <> e) ->
  Query.first_by user_email
    (map (fun x => if user_id x =? user_id caller then set_email e x else x) l)
    e
  = Some (set_email e caller).
Proof.
  unfold Query.get, Query.first_by.
  induction l as [|x l IH]; simpl; intros Hg Hf; [discriminate|].
  destruct (user_id x =? user_id caller) eqn:E.
  - inversion Hg; subst x. simpl. now rewrite String.eqb_refl.
  - assert (Hx : String.eqb (user_email x) e = false)
      by (apply String.eqb_neq; auto).
    rewrite Hx. apply IH; auto.
Qed.

Lemma old_email_gone (caller : User) e l :
  NoDup (map user_email l) -> In caller l -> user_email caller <> e ->
  Query.first_by user_email
    (map (fun x => if user_id x =? user_id caller then set_email e x else x) l)
    (user_email caller)
  = None.
Proof.
  intros Hnd Hin Hne. apply first_by_none. intros y Hy.
  apply in_map_iff in Hy as (x & <- & Hx).
  destruct (user_id x =? user_id caller) eqn:E; simpl.
  - congruence.
  - intros Heq. pose proof (NoDup_map_inj user_email l x caller Hnd Hx Hin Heq).
    subst x. rewrite Z.eqb_refl in E. discriminate.
Qed.

(** What [edit_account] does for a logged-in caller who submits a fresh,
    well-formed email. *)
Lemma edit_account_validated req w caller e :
  logged_in_as w caller -> method req = POST ->
  Str.blank e = false -> email_syntax_ok e = true -> Str.len e <= 100 ->
  Query.first_by user_email (users (db w)) e = None ->
  edit_account email_syntax_ok req (mkEditProfileForm (Some e)) w
  = (Returns (redirect_url_for views_account),
     mkWorld (update_user caller (set_email e) (db w)) (uploads w) (session w)
       (flashed w ++ [(success, ProfileUpdated)])).
Proof.
  intros Hc Hm Hb Hs Hl Hn. unfold logged_in_as in Hc.
  unfold edit_account, validate_on_submit, is_submitted,
    EditProfileForm_validate. run_view.
  rewrite Hc, Hm. cbn [editprofile_email].
  rewrite (email_chain_fresh email_syntax_ok (db w) e Hb Hs Hl Hn).
  reflexivity.
Qed.

Lemma email_chain_taken_exact st e u :
  Str.blank e = false -> email_syntax_ok e = true -> Str.len e <= 100 ->
  Query.first_by user_email (users st) e = Some u ->
  validate_field (email_field_validators email_syntax_ok) [validate_email st]
    [] (Some e) = [EmailAlreadyRegistered].
Proof.
  intros Hb Hs Hl Hu. unfold validate_field, email_field_validators. simpl.
  unfold Length.
  rewrite (blank_false_nonempty _ Hb), Hs, Hu.
  assert (H1 : (-1 <=? Str.len e) = true)
    by (apply Z.leb_le; unfold Str.len; lia).
  assert (H2 : (Str.len e <=? 100) = true) by (now apply Z.leb_le).
  rewrite H1, H2. reflexivity.
Qed.

(** C3: the claim fails in the code.  [EditProfileForm] inherits
    [validate_email], which looks for any stored user with the submitted
    email and, unlike [validate_name] of [ShopForm], does not leave out the
    caller.  A logged-in caller who submits the own current email, being
    non-blank, well-formed and of at most 100 characters (the value that a
    GET of the page puts into the field), gets the form again with the
    error [EmailAlreadyRegistered] on the email field, and the world stays
    as it was: the edit does not succeed. *)
Theorem edit_account_rejects_own_email :
  forall (req : Request) (w : World) (caller : User),
    logged_in_as w caller ->
    method req = POST ->
    Str.blank (user_email caller) = false ->
    email_syntax_ok (user_email caller) = true ->
    Str.len (user_email caller) <= 100 ->
    edit_account email_syntax_ok req
      (mkEditProfileForm (Some (user_email caller))) w
    = (Returns (render_template edit_account_html
                  (form_context [(f_email, [EmailAlreadyRegistered])])),
       w).
Proof.
  intros req w caller Hc Hm Hb Hs Hl.
  pose proof (logged_in_user _ _ Hc) as Hget.
  destruct (get_key _ _ _ _ Hget) as [_ Hin].
  destruct (first_by_in user_email _ _ Hin) as [u Hu].
  unfold logged_in_as in Hc.
  unfold edit_account, validate_on_submit, is_submitted,
    EditProfileForm_validate. run_view.
  rewrite Hc, Hm. cbn [editprofile_email].
  rewrite (email_chain_taken_exact (db w) _ u Hb Hs Hl Hu).
  reflexivity.
Qed.

(** X30: the uniqueness check on a profile edit, as the code has it.  For a
    logged-in caller: an edit with a non-blank, well-formed email of at
    most 100 characters that no stored user has succeeds and stores the
    email as the caller's; an edit with the email of any stored user, the
    caller included, renders the form again with an error on the email
    field and changes nothing. *)
Theorem edit_account_email_must_be_fresh :
  forall (req : Request) (w : World) (caller : User),
    logged_in_as w caller ->
    method req = POST ->
    (forall e : string,
        Str.blank e = false ->
        email_syntax_ok e = true ->
        Str.len e <= 100 ->
        (forall u, In u (users (db w)) -> user_email u <> e) ->
        let st' := update_user caller (set_email e) (db w) in
        edit_account email_syntax_ok req (mkEditProfileForm (Some e)) w
        = (Returns (redirect_url_for views_account),
           mkWorld st' (uploads w) (session w)
             (flashed w ++ [(success, ProfileUpdated)]))
        /\ Query.get user_id (users st') (user_id caller)
           = Some (set_email e caller))
    /\ (forall other : User,
          In other (users (db w)) ->
          let taken := mkEditProfileForm (Some (user_email other)) in
          edit_account email_syntax_ok req taken w
          = (Returns (render_template edit_account_html
                        (form_context
                           (EditProfileForm_validate email_syntax_ok (db w)
                              taken))),
             w)
          /\ field_errors f_email
               (EditProfileForm_validate email_syntax_ok (db w) taken) <> []).
Proof.
  intros req w caller Hc Hm.
  pose proof (logged_in_user _ _ Hc) as Hget.
  split.
  - intros e Hb Hs Hl Hfresh st'. split.
    + now apply edit_account_validated;
        [| | | | |apply first_by_none].
    + unfold st', update_user. cbn [users]. now apply get_update_user.
  - intros other Hin taken. unfold logged_in_as in Hc.
    destruct (first_by_in user_email _ _ Hin) as [u' Hu'].
    destruct (email_chain_taken email_syntax_ok (db w) _ _ Hu') as [Hnil _].
    split.
    + unfold edit_account. run_view. rewrite Hc.
      unfold validate_on_submit, is_submitted, taken, EditProfileForm_validate.
      rewrite Hm. cbn [editprofile_email]. revert Hnil.
      destruct (validate_field _ _ _ _); [congruence|reflexivity].
    + unfold taken, EditProfileForm_validate. cbn [editprofile_email].
      revert Hnil.
      destruct (validate_field _ _ _ _); [congruence|discriminate].
Qed.

(** X9: a logged-in caller who changes the email to a fresh, well-formed
    one can, after logging out, log in with the new email and the password
    as before, and no longer with the old email, which is now unknown to
    the login. *)
Theorem edit_account_then_login :
  forall (req : Request) (w : World) (caller : User) (e p : string)
         (remember : bool),
    emails_unique (db w) ->
    logged_in_as w caller ->
    method req = POST ->
    Str.blank e = false -> email_syntax_ok e = true -> Str.len e <= 100 ->
    (forall u, In u (users (db w)) -> user_email u <> e) ->
    Str.blank (user_email caller) = false ->
    email_syntax_ok (user_email caller) = true ->
    Str.blank p = false ->
    check_password_hash (user_password_hash caller) p = Some true ->
    exists w1 w2 : World,
      edit_account email_syntax_ok req (mkEditProfileForm (Some e)) w
      = (Returns (redirect_url_for views_account), w1)
      /\ logout w1 = (Returns (redirect_url_for views_index), w2)
      /\ login email_syntax_ok check_password_hash req
           (mkLoginForm (Some e) (Some p) remember) w2
         = (Returns (if truthy (args_next req)
                     then redirect (data (args_next req))
                     else redirect_url_for views_index),
            mkWorld (db w2) (uploads w2) (Some (user_id caller)) (flashed w2))
      /\ login email_syntax_ok check_password_hash req
           (mkLoginForm (Some (user_email caller)) (Some p) remember) w2
         = (Returns (render_template login_html (form_context [])),
            mkWorld (db w2) (uploads w2) None
              (flashed w2 ++ [(danger, WrongEmailOrPassword)])).
Proof.
  intros req w caller e p remember Hu Hc Hm Hb Hs Hl Hfresh Hob Hos Hp Cp.
  pose proof (logged_in_user _ _ Hc) as Hget.
  destruct (get_key _ _ _ _ Hget) as [_ Hin].
  pose proof (first_by_none user_email _ _ Hfresh) as Hn.
  set (w1 := mkWorld (update_user caller (set_email e) (db w)) (uploads w)
               (session w) (flashed w ++ [(success, ProfileUpdated)])).
  assert (Hc1 : logged_in_as w1 (set_email e caller)).
  { unfold logged_in_as, current_user in *. cbn [session w1].
    destruct (session w) as [uid|]; [|discriminate].
    assert (E : Query.get user_id (users (db w)) uid = Some caller)
      by congruence.
    apply get_key in E as [<- _].
    unfold w1, update_user. cbn [db users].
    now rewrite (get_update_user _ caller (set_email e) caller). }
  exists w1, (mkWorld (db w1) (uploads w1) None (flashed w1)).
  split; [now apply edit_account_validated|].
  split; [now apply (logout_logged_in w1 (set_email e caller))|].
  split;
    (rewrite login_validated; auto; [|now apply session_none_anonymous]);
    cbn [db uploads session flashed w1 update_user users].
  - rewrite (first_by_after_set_email caller e _ Hget Hfresh).
    cbn [user_password_hash set_email user_id]. now rewrite Cp.
  - rewrite old_email_gone; auto.
Qed.

(** X10: whatever is submitted, [edit_account] leaves the row of every user
    other than the caller, every user id and password hash, and the shops,
    products and comments as they were. *)
Theorem edit_account_scope :
  forall (req : Request) (form : EditProfileForm) (w : World) (caller : User),
    logged_in_as w caller ->
    let st' := db (snd (edit_account email_syntax_ok req form w)) in
    (forall k, k <> user_id caller ->
               Query.get user_id (users st') k
               = Query.get user_id (users (db w)) k)
    /\ map user_id (users st') = map user_id (users (db w))
    /\ map user_password_hash (users st')
       = map user_password_hash (users (db w))
    /\ shops st' = shops (db w)
    /\ products st' = products (db w)
    /\ comments st' = comments (db w).
Proof.
  intros req form w caller Hc st'. unfold logged_in_as in Hc.
  unfold st', edit_account, validate_on_submit, is_submitted.
  run_view. rewrite Hc.
  destruct (method req); cbn [fst snd db]; try tauto.
  destruct (no_errors (EditProfileForm_validate email_syntax_ok (db w) form));
    cbn [fst snd db]; try tauto.
  unfold update_user. cbn [users shops products comments].
  repeat split.
  - intros k Hk. now apply get_update_other.
  - now apply map_update_proj.
  - now apply map_update_proj.
Qed.

End Accounts.

(* ----------------------------------------------------------------- *)
(** *** Catalog: shops, products, comments *)


Lemma get_snoc_old {A} (key : A -> Z) rows r id x :
  Query.get key rows id = Some x -> Query.get key (rows ++ [r]) id = Some x.
Proof.
  unfold Query.get. intros H.
  induction rows as [|y rows IH]; simpl in *; [discriminate|].
  destruct (key y =? id); [exact H|now apply IH].
Qed.

Section Catalog.

Variable secure_filename : string -> string.





(** X13: a logged-in caller who submits a non-blank comment of 10 to 500
    characters on a stored product gets one new comment row, with a fresh
    id, that text, the caller as author and the product as parent; the
    other comments stay, and the caller is sent back to the product page. *)
Theorem comment_by_user_stored :
  forall (req : Request) (text : string) (w : World) (author : User)
         (pid : Z) (p : Product),
    logged_in_as w author ->
    method req = POST ->
    Query.get product_id (products (db w)) pid = Some p ->
    Str.blank text = false ->
    10 <= Str.len text <= 500 ->
    let new_comment :=
      mkComment (Query.next_id comment_id (comments (db w))) text
        (user_id author) pid in
    product req (mkCommentForm (Some text)) pid w
    = (Returns (redirect_url_for (views_product pid)),
       mkWorld
         (mkStore (users (db w)) (shops (db w)) (products (db w))
            (comments (db w) ++ [new_comment]))
         (uploads w) (session w) (flashed w ++ [(success, CommentAdded)]))
    /\ ~ In (comment_id new_comment) (map comment_id (comments (db w))).
Proof.
  intros req text w author pid p Hc Hm Hg Hb [Hlo Hhi] new_comment.
  destruct (get_key _ _ _ _ Hg) as [Hid _]. unfold logged_in_as in Hc.
  split; [|apply next_id_fresh].
  unfold product, validate_on_submit, is_submitted, CommentForm_validate.
  run_view. rewrite Hg, Hm. cbn [commentform_text].
  rewrite (proj2 (required_length_iff CommentRequired 10 500 CommentLength
                    (Some text))) by eauto 6.
  cbn [report no_errors]. rewrite Hc.
  unfold add_comment, new_comment. cbn [data]. now rewrite Hid.
Qed.

(** X14: an anonymous caller who submits a comment that passes the checks
    on a stored product is sent to the login page with a warning, and
    nothing is stored. *)
Theorem comment_by_anonymous_redirected :
  forall (req : Request) (text : string) (w : World) (pid : Z) (p : Product),
    anonymous w ->
    method req = POST ->
    Query.get product_id (products (db w)) pid = Some p ->
    Str.blank text = false ->
    10 <= Str.len text <= 500 ->
    product req (mkCommentForm (Some text)) pid w
    = (Returns (redirect_url_for views_login),
       mkWorld (db w) (uploads w) (session w)
         (flashed w ++ [(warning, LoginNeededToComment)])).
Proof.
  intros req text w pid p Ha Hm Hg Hb [Hlo Hhi]. unfold anonymous in Ha.
  unfold product, validate_on_submit, is_submitted, CommentForm_validate.
  run_view. rewrite Hg, Hm. cbn [commentform_text].
  rewrite (proj2 (required_length_iff CommentRequired 10 500 CommentLength
                    (Some text))) by eauto 6.
  cbn [report no_errors]. now rewrite Ha.
Qed.

End Catalog.

Lemma existsb_eqb_false name (l : list string) :
  existsb (String.eqb name) l = false -> ~ In name l.
Proof.
  intros H Hin.
  assert (Ht : existsb (String.eqb name) l = true).
  { apply existsb_exists. exists name. split; [exact Hin|].
    apply String.eqb_refl. }
  congruence.
Qed.

Lemma existsb_eqb_true name (l : list string) :
  In name l -> existsb (String.eqb name) l = true.
Proof.
  intros Hin. apply existsb_exists. exists name. split; [exact Hin|].
  apply String.eqb_refl.
Qed.

(** X15: the owner deletes a product.  When [os.remove] does not raise and
    the product names an image, the file of that name is gone from the
    upload folder afterwards and every other file stays; a product without
    image leaves the folder as it was.  When [os.remove] raises, the folder
    stays as it was, and for a product whose image is in the folder the
    error is flashed as a warning and the deletion goes on: the rows are
    deleted and the caller is redirected as on success. *)
Theorem delete_product_removes_image :
  forall (req : Request) (w : World) (caller : User) (pid : Z) (p : Product)
         (s : Shop),
    logged_in_as w caller ->
    Query.get product_id (products (db w)) pid = Some p ->
    product_shop (db w) p = Some s ->
    shop_owner_id s = user_id caller ->
    let after := uploads (snd (delete_product req pid w)) in
    (os_remove_raises req = false ->
     forall name, product_image p = Some name -> name <> ""%string ->
                  ~ In name after
                  /\ forall other, In other after <->
                                   In other (uploads w) /\ other <> name)
    /\ (truthy (product_image p) = false -> after = uploads w)
    /\ (os_remove_raises req = true ->
        after = uploads w
        /\ forall name,
             product_image p = Some name -> name <> ""%string ->
             In name (uploads w) ->
             delete_product req pid w
             = (Returns (redirect_url_for (views_manage_shop (shop_id s))),
                mkWorld (delete_product_rows p (db w)) (uploads w) (session w)
                  (flashed w
                   ++ [(warning, ImageRemoveError);
                       (success, ProductDeleted)]))).
Proof.
  intros req w caller pid p s Hc Hp Hps Ho after.
  pose proof (owner_eq w s caller Hc Ho) as Eo. unfold logged_in_as in Hc.
  destruct (remove_image_run req p w) as (up & fl & Hrun & Hupfl).
  assert (Hdel : delete_product req pid w
                 = (Returns (redirect_url_for (views_manage_shop (shop_id s))),
                    mkWorld (delete_product_rows p (db w)) up (session w)
                      ((flashed w ++ fl) ++ [(success, ProductDeleted)]))).
  { unfold delete_product. run_view. rewrite Hc, Hp, Hps, Eo, Hrun.
    reflexivity. }
  assert (Hafter : after = up).
  { unfold after. now rewrite Hdel. }
  rewrite Hafter. split; [|split].
  - intros Hr name Hi Hne. rewrite Hr, Hi in Hupfl. cbn [truthy data] in Hupfl.
    apply String.eqb_neq in Hne. rewrite Hne in Hupfl. cbn [negb andb] in Hupfl.
    assert (Hf : forall other,
               In other (filter (fun n => negb (String.eqb n name)) (uploads w))
               <-> In other (uploads w) /\ other <> name).
    { intros other. rewrite filter_In, negb_true_iff, String.eqb_neq.
      reflexivity. }
    destruct (existsb (String.eqb name) (uploads w)) eqn:Ex;
      inversion Hupfl; subst up fl.
    + split; [|exact Hf]. intros Hin. apply Hf in Hin as [_ Hin].
      now apply Hin.
    + apply existsb_eqb_false in Ex. split; [exact Ex|].
      intros other. split.
      * intros Hin. split; [exact Hin|]. intros ->. now apply Ex.
      * now intros [Hin _].
  - intros Ht. rewrite Ht in Hupfl. cbn [andb] in Hupfl. congruence.
  - intros Hr. rewrite Hr in Hupfl. split.
    + destruct (truthy (product_image p)
                && existsb (String.eqb (data (product_image p))) (uploads w));
        congruence.
    + intros name Hi Hne Hin. rewrite Hdel. rewrite Hi in Hupfl.
      cbn [truthy data] in Hupfl.
      apply String.eqb_neq in Hne. rewrite Hne in Hupfl.
      rewrite (existsb_eqb_true name _ Hin) in Hupfl.
      cbn [negb andb] in Hupfl. inversion Hupfl; subst up fl.
      now rewrite <- app_assoc.
Qed.

(* ----------------------------------------------------------------- *)
(** *** Who can change what *)

Section Access.

Variable email_syntax_ok : string -> bool.
Variable generate_password_hash : string -> option string.
Variable check_password_hash : string -> string -> option bool.
Variable secure_filename : string -> string.

(** X16: for an anonymous caller, the views behind [login_required]
    (logout, create and manage shop, add and delete product, account, edit
    account, change password) turn the caller away and leave the world as
    it was, whatever the request carries. *)
Theorem login_required_blocks :
  forall (c : Call) (req : Request) (w : World),
    anonymous w ->
    match c with
    | call_logout | call_create_shop _ | call_manage_shop _
    | call_add_product _ _ | call_delete_product _ | call_account
    | call_edit_account _ | call_change_password _ => True
    | _ => False
    end ->
    dispatch email_syntax_ok generate_password_hash check_password_hash
      secure_filename c req w = (Unauthorized, w).
Proof.
  intros c req w Ha Hc. unfold anonymous in Ha.
  destruct c; try contradiction; cbn [dispatch];
    unfold logout, create_shop, manage_shop, add_product, delete_product,
      account, edit_account, change_password;
    run_view; now rewrite Ha.
Qed.

(** X17: of all the views, only [register] writes to the database or to the
    upload folder for an anonymous caller. *)
Theorem anonymous_writes_only_by_register :
  forall (c : Call) (req : Request) (w : World),
    anonymous w ->
    (forall form, c <> call_register form) ->
    db (snd (dispatch email_syntax_ok generate_password_hash check_password_hash
      secure_filename c req w)) = db w
    /\ uploads (snd (dispatch email_syntax_ok generate_password_hash check_password_hash
      secure_filename c req w)) = uploads w.
Proof.
  intros c req w Ha Hc. unfold anonymous, current_user in Ha.
  assert (H : match session w with
              | Some uid => Query.get user_id (users (db w)) uid
              | None => None
              end = None) by congruence.
  clear Ha.
  destruct c; try (now exfalso; eapply Hc); cbn [dispatch];
    unfold index, login, logout, create_shop, manage_shop, shop, add_product,
      product, delete_product, search, account, edit_account, change_password,
      validate_on_submit, is_submitted;
    run_view; unfold current_user, login_user, logout_user;
    repeat (simpl; rewrite ?H;
            match goal with
            | |- context [match ?x with _ => _ end] =>
                lazymatch x with
                | context [match _ with _ => _ end] => fail
                | _ => destruct x eqn:?
                end
            end);
    simpl; rewrite ?H; auto.
Qed.

(** X18: the views index, login, logout, manage shop, shop, search and
    account never write to the database or to the upload folder, whoever
    calls them. *)
Theorem reading_views_write_nothing :
  forall (c : Call) (req : Request) (w : World),
    match c with
    | call_index | call_login _ | call_logout | call_manage_shop _
    | call_shop _ | call_search | call_account => True
    | _ => False
    end ->
    db (snd (dispatch email_syntax_ok generate_password_hash check_password_hash
      secure_filename c req w)) = db w
    /\ uploads (snd (dispatch email_syntax_ok generate_password_hash check_password_hash
      secure_filename c req w)) = uploads w.
Proof.
  intros c req w Hc.
  destruct c; try contradiction; clear Hc; cbn [dispatch];
    unfold index, login, logout, manage_shop, shop, search, account,
      validate_on_submit, is_submitted, current_user, login_user, logout_user;
    run_view; view_cases; auto.
Qed.

End Access.

(* ----------------------------------------------------------------- *)
(** *** Search, the front page and the account page *)

Lemma lower_pattern q :
  Str.lower ("%" ++ q ++ "%") = ("%" ++ Str.lower q ++ "%")%string.
Proof.
  change ("%" ++ q ++ "%")%string with ("%" ++ (q ++ "%"))%string.
  now rewrite !lower_app.
Qed.

Lemma lower_empty_iff q : Str.lower q = ""%string <-> q = ""%string.
Proof.
  destruct q; simpl; split; auto; discriminate.
Qed.

(** X19: [search] does not tell upper case from lower case in the query:
    two queries that are equal once lowered give the same products on the
    same world. *)
Theorem search_case_insensitive :
  forall (req1 req2 : Request) (w : World) (q1 q2 : string),
    args_q req1 = Some q1 ->
    args_q req2 = Some q2 ->
    Str.lower q1 = Str.lower q2 ->
    exists results : list Product,
      search req1 w
      = (Returns (render_template search_html (search_context results q1)), w)
      /\ search req2 w
         = (Returns (render_template search_html (search_context results q2)),
            w).
Proof.
  intros req1 req2 w q1 q2 H1 H2 Hl.
  unfold search. rewrite H1, H2. run_view.
  destruct (String.eqb q1 "") eqn:E1.
  - apply String.eqb_eq in E1. subst q1.
    assert (q2 = ""%string) by (apply lower_empty_iff; now rewrite <- Hl).
    subst q2. exists []. split; reflexivity.
  - assert (E2 : String.eqb q2 "" = false).
    { apply String.eqb_neq. intros ->. apply String.eqb_neq in E1.
      apply E1. now apply lower_empty_iff. }
    rewrite E2. cbn [negb].
    exists (filter (search_filter q1) (products (db w))).
    split; [reflexivity|]. do 4 f_equal.
    apply filter_ext. intros p. unfold search_filter, Sql.ilike.
    now rewrite !lower_pattern, Hl.
Qed.

Lemma like_percents p s :
  Str.all (Ascii.eqb "%") p = true -> Sql.like (String "%" p) s = true.
Proof.
  revert s. induction p as [|c p IH]; intros s Hp; [apply like_any|].
  cbn [Str.all] in Hp. apply andb_true_iff in Hp as [Hc Hp].
  apply Ascii.eqb_eq in Hc. subst c.
  rewrite like_percent, (IH s Hp). reflexivity.
Qed.

Lemma all_percent_app a b :
  Str.all (Ascii.eqb "%") a = true -> Str.all (Ascii.eqb "%") b = true ->
  Str.all (Ascii.eqb "%") (a ++ b) = true.
Proof.
  induction a as [|c a IH]; cbn [Str.all append]; intros Ha Hb; [exact Hb|].
  apply andb_true_iff in Ha as [Hc Ha]. rewrite Hc. now apply IH.
Qed.

Lemma lower_percents q :
  Str.all (Ascii.eqb "%") q = true -> Str.lower q = q.
Proof.
  induction q as [|c q IH]; cbn [Str.all Str.lower]; intros H; [reflexivity|].
  apply andb_true_iff in H as [Hc H]. apply Ascii.eqb_eq in Hc. subst c.
  now rewrite IH.
Qed.

Lemma filter_all {A} (f : A -> bool) l :
  (forall x, f x = true) -> filter f l = l.
Proof.
  intros H. induction l as [|x l IH]; simpl; [reflexivity|].
  now rewrite H, IH.
Qed.

(** X20: a query that is not empty and made of percent signs only returns
    every product of the store, in the order of the table: the query's
    percent signs act as wildcards of the pattern. *)
Theorem search_percent_returns_all :
  forall (req : Request) (w : World) (q : string),
    args_q req = Some q ->
    q <> ""%string ->
    Str.all (Ascii.eqb "%") q = true ->
    search req w
    = (Returns (render_template search_html
                  (search_context (products (db w)) q)), w).
Proof.
  intros req w q Hq Hne Hp. unfold search. rewrite Hq.
  apply String.eqb_neq in Hne. rewrite Hne. run_view. cbn [negb].
  rewrite filter_all; [reflexivity|].
  intros p. unfold search_filter, Sql.ilike.
  rewrite lower_pattern, (lower_percents q Hp).
  assert (Hall : Str.all (Ascii.eqb "%") (q ++ "%") = true)
    by (apply all_percent_app; auto).
  change ("%" ++ q ++ "%")%string with (String "%" (q ++ "%")).
  now rewrite !(like_percents _ _ Hall).
Qed.

Lemma insert_desc_perm {A} (key : A -> Z) r l :
  Permutation (Query.insert_desc key r l) (r :: l).
Proof.
  induction l as [|x l IH]; simpl; [reflexivity|].
  destruct (key x <? key r); [reflexivity|].
  rewrite IH. apply perm_swap.
Qed.

Lemma order_by_desc_perm {A} (key : A -> Z) l :
  Permutation (Query.order_by_desc key l) l.
Proof.
  unfold Query.order_by_desc.
  induction l as [|x l IH]; simpl; [reflexivity|].
  rewrite insert_desc_perm. now constructor.
Qed.

Lemma insert_desc_sorted r l :
  StronglySorted newest_first l ->
  StronglySorted newest_first (Query.insert_desc product_id r l).
Proof.
  induction 1 as [|x l Hl IH Hx]; simpl.
  - repeat constructor.
  - destruct (product_id x <? product_id r) eqn:E.
    + apply Z.ltb_lt in E. constructor; [now constructor|].
      constructor; [unfold newest_first; lia|].
      apply Forall_impl with (2 := Hx). unfold newest_first. lia.
    + apply Z.ltb_ge in E. constructor; [exact IH|].
      assert (Hf : Forall (newest_first x) (r :: l))
        by (constructor; [exact E|exact Hx]).
      revert Hf. apply Permutation_Forall. symmetry. apply insert_desc_perm.
Qed.

Lemma order_by_desc_sorted l :
  StronglySorted newest_first (Query.order_by_desc product_id l).
Proof.
  unfold Query.order_by_desc.
  induction l as [|x l IH]; simpl; [constructor|].
  now apply insert_desc_sorted.
Qed.

(** X21: the front page shows the ten products with the largest ids, newest
    first, or all of them when the store has fewer: the shown list followed
    by some rest is the product table reordered with ids descending, and
    the page changes nothing. *)
Theorem index_newest_ten :
  forall w : World,
    exists shown rest : list Product,
      index w
      = (Returns (render_template index_html
                    (mkContext None None [] None shown None)), w)
      /\ Permutation (shown ++ rest)%list (products (db w))
      /\ StronglySorted newest_first (shown ++ rest)%list
      /\ List.length shown = Nat.min 10 (List.length (products (db w))).
Proof.
  intros w.
  exists (firstn 10 (Query.order_by_desc product_id (products (db w)))),
         (skipn 10 (Query.order_by_desc product_id (products (db w)))).
  split; [reflexivity|]. rewrite firstn_skipn. split; [|split].
  - apply order_by_desc_perm.
  - apply order_by_desc_sorted.
  - rewrite length_firstn. f_equal.
    apply Permutation_length, order_by_desc_perm.
Qed.

Lemma get_unique {A} (key : A -> Z) rows r :
  NoDup (map key rows) -> In r rows -> Query.get key rows (key r) = Some r.
Proof.
  unfold Query.get.
  induction rows as [|x rows IH]; simpl; intros Hnd Hin; [contradiction|].
  inversion Hnd as [|? ? Hx Hnd']; subst.
  destruct Hin as [->|Hin].
  - now rewrite Z.eqb_refl.
  - destruct (key x =? key r) eqn:E; [|now apply IH].
    apply Z.eqb_eq in E. exfalso. apply Hx. rewrite E. now apply in_map.
Qed.

(** X22: the account page of a logged-in caller lists exactly the stored
    shops that the caller owns, and, shop ids being unique, the management
    page of every listed shop opens for the caller. *)
Theorem account_shops_manageable :
  forall (w : World) (caller : User),
    logged_in_as w caller ->
    NoDup (map shop_id (shops (db w))) ->
    exists listed : list Shop,
      account w
      = (Returns (render_template account_html
                    (mkContext None None listed None [] None)), w)
      /\ (forall s, In s listed <->
                    In s (shops (db w)) /\ shop_owner_id s = user_id caller)
      /\ (forall s, In s listed ->
                    manage_shop (shop_id s) w
                    = (Returns (render_template manage_shop_html
                                  (shop_context s None)), w)).
Proof.
  intros w caller Hc Hnd.
  exists (filter (fun s => shop_owner_id s =? user_id caller) (shops (db w))).
  assert (Hin : forall s,
             In s (filter (fun s => shop_owner_id s =? user_id caller)
                     (shops (db w)))
             <-> In s (shops (db w)) /\ shop_owner_id s = user_id caller).
  { intros s. now rewrite filter_In, Z.eqb_eq. }
  split; [|split; [exact Hin|]].
  - unfold logged_in_as in Hc. unfold account. run_view. now rewrite Hc.
  - intros s Hs. apply Hin in Hs as [Hs Ho].
    pose proof (owner_eq w s caller Hc Ho) as Eo.
    unfold logged_in_as in Hc. unfold manage_shop. run_view.
    now rewrite Hc, (get_unique shop_id _ s Hnd Hs), Eo.
Qed.

(* ----------------------------------------------------------------- *)
(** *** Names of uploaded files *)



(* ----------------------------------------------------------------- *)
(** *** The price field and requests that only read *)

(** X27: the price field reports at most one message, and never the one of
    the float parser: a missing, unreadable or zero price is reported as
    required (the required check drops what the parser reported), every
    other refused price as not positive. *)
Theorem price_errors_messages :
  forall i : FloatInput,
    (price_errors i = [PriceRequired]
     <-> i = FloatMissing \/ i = FloatUnparsable
         \/ exists sign, i = FloatParsed (S754_zero sign))
    /\ (price_errors i = [] \/ price_errors i = [PriceRequired]
        \/ price_errors i = [PriceMustBePositive]).
Proof.
  intros i. unfold price_errors, validate_field.
  destruct i as [| |x];
    cbn [FloatField_process app run_validation_chain DataRequired_float].
  - split; [split; auto|auto].
  - split; [split; auto|auto].
  - destruct x as [s|s| |s m e];
      cbn [float_truthy app]; unfold NumberRange; cbn [is_nan orb].
    + split; [split; eauto|auto].
    + split; [|destruct (SFltb _ _); auto].
      split; [destruct (SFltb _ _); discriminate|].
      intros [H|[H|[sg H]]]; discriminate.
    + split; [|auto].
      split; [discriminate|]. intros [H|[H|[sg H]]]; discriminate.
    + rewrite orb_false_r. split.
      * split; [destruct (SFltb _ _); discriminate|].
        intros [H|[H|[sg H]]]; discriminate.
      * destruct (SFltb _ _); auto.
Qed.

Section Requests.

Variable email_syntax_ok : string -> bool.
Variable generate_password_hash : string -> option string.
Variable check_password_hash : string -> string -> option bool.
Variable secure_filename : string -> string.

(** X28: on a GET, no view but [delete_product] (whose route takes POST
    only) writes to the database or to the upload folder or flashes a
    message, whoever calls it and whatever the form holds. *)
Theorem get_requests_write_nothing :
  forall (c : Call) (req : Request) (w : World),
    method req = GET ->
    (forall pid, c <> call_delete_product pid) ->
    db (snd (dispatch email_syntax_ok generate_password_hash
               check_password_hash secure_filename c req w)) = db w
    /\ uploads (snd (dispatch email_syntax_ok generate_password_hash
                       check_password_hash secure_filename c req w))
       = uploads w
    /\ flashed (snd (dispatch email_syntax_ok generate_password_hash
                       check_password_hash secure_filename c req w))
       = flashed w.
Proof.
  intros c req w Hm Hc.
  destruct c; try (now exfalso; eapply Hc); cbn [dispatch];
    unfold index, login, register, logout, create_shop, manage_shop, shop,
      add_product, product, search, account, edit_account, change_password,
      validate_on_submit, is_submitted;
    rewrite ?Hm; run_view;
    unfold current_user, login_user, logout_user; cbv beta iota;
    repeat match goal with
           | |- context [match ?x with _ => _ end] =>
               lazymatch x with
               | context [match _ with _ => _ end] => fail
               | _ => destruct x eqn:?; cbv beta iota
               end
           end;
    cbn [fst snd db uploads flashed]; auto.
Qed.

End Requests.

(* ----------------------------------------------------------------- *)
(** *** The further properties at work on the example store *)

Lemma form_image_passes_allowed_file_witness :
  allowed_file "Photo.JPG" = true.
Proof.
  apply (form_image_passes_allowed_file "Photo.JPG"); demo_hyp.
Defined.

Lemma register_then_login_witness :
  (exists w1 : World,
     register Demo.email_ok Demo.hash Demo.post
       (mkRegisterForm (Some "carol@x.com") (Some "password3")
          (Some "password3")) (Demo.world None)
     = (Returns (redirect_url_for views_login), w1)
     /\ login Demo.email_ok Demo.check Demo.post
          (mkLoginForm (Some "carol@x.com") (Some "password3") false) w1
        = (Returns (redirect_url_for views_index),
           mkWorld (db w1) (uploads w1) (Some 3) (flashed w1)))
  /\ register Demo.email_ok Demo.hash Demo.post
       (mkRegisterForm (Some "carol@x.com") (Some Demo.long_password)
          (Some Demo.long_password)) (Demo.world None)
     = (Returns (redirect_url_for views_register),
        mkWorld Demo.store ["ab12_shirt.png"] None
          [(danger, RegistrationError)]).
Proof.
  split.
  - pose proof (register_then_login Demo.email_ok Demo.hash Demo.check
                  Demo.post (Demo.world None) "carol@x.com" "password3" false)
      as H.
    feed H. destruct H as [H _].
    specialize (H (Demo.digest "password3")). feed H.
    destruct H as (w1 & H1 & _ & _ & H2). feed H2.
    exists w1. split; assumption.
  - pose proof (register_then_login Demo.email_ok Demo.hash Demo.check
                  Demo.post (Demo.world None) "carol@x.com"
                  Demo.long_password false) as H.
    feed H. destruct H as [_ H]. feed H. exact H.
Defined.

Lemma change_password_then_login_witness :
  (exists w1 w2 : World,
     change_password Demo.hash Demo.check Demo.post
       (mkChangePasswordForm (Some "password1") (Some "password9")
          (Some "password9")) (Demo.world (Some 1))
     = (Returns (redirect_url_for views_account), w1)
     /\ logout w1 = (Returns (redirect_url_for views_index), w2)
     /\ login Demo.email_ok Demo.check Demo.post
          (mkLoginForm (Some "a@x.com") (Some "password9") false) w2
        = (Returns (redirect_url_for views_index),
           mkWorld (db w2) (uploads w2) (Some 1) (flashed w2))
     /\ login Demo.email_ok Demo.check Demo.post
          (mkLoginForm (Some "a@x.com") (Some "password1") false) w2
        = (Returns (render_template login_html (form_context [])),
           mkWorld (db w2) (uploads w2) None
             (flashed w2 ++ [(danger, WrongEmailOrPassword)])))
  /\ change_password Demo.hash Demo.check Demo.post
       (mkChangePasswordForm (Some "password1") (Some Demo.long_password)
          (Some Demo.long_password)) (Demo.world (Some 1))
     = (Uncaught, Demo.world (Some 1)).
Proof.
  split.
  - pose proof (change_password_then_login Demo.email_ok Demo.hash Demo.check
                  Demo.post (Demo.world (Some 1)) Demo.alice "password1"
                  "password9" false) as H.
    feed H. destruct H as [H _].
    specialize (H (Demo.digest "password9")). feed H.
    destruct H as (w1 & w2 & H1 & _ & H2 & H3). feed H3.
    destruct H3 as [H3 H4]. feed H3.
    specialize (H4 "password1"%string). feed H4.
    exists w1, w2. repeat split; assumption.
  - pose proof (change_password_then_login Demo.email_ok Demo.hash Demo.check
                  Demo.post (Demo.world (Some 1)) Demo.alice "password1"
                  Demo.long_password false) as H.
    feed H. destruct H as (_ & H & _). feed H. exact H.
Defined.

Lemma change_password_scope_witness :
  Query.get user_id
    (users (db (snd (change_password Demo.hash Demo.check Demo.post
                       (mkChangePasswordForm (Some "password1")
                          (Some "password9") (Some "password9"))
                       (Demo.world (Some 1)))))) 2
  = Some Demo.bob.
Proof.
  pose proof (change_password_scope Demo.hash Demo.check Demo.post
                (mkChangePasswordForm (Some "password1") (Some "password9")
                   (Some "password9"))
                (Demo.world (Some 1)) Demo.alice) as H.
  feed H. destruct H as (H & _). rewrite (H 2); demo_hyp.
Defined.

Lemma edit_account_then_login_witness :
  exists w1 w2 : World,
    edit_account Demo.email_ok Demo.post (mkEditProfileForm (Some "al@x.com"))
      (Demo.world (Some 1))
    = (Returns (redirect_url_for views_account), w1)
    /\ logout w1 = (Returns (redirect_url_for views_index), w2)
    /\ login Demo.email_ok Demo.check Demo.post
         (mkLoginForm (Some "al@x.com") (Some "password1") false) w2
       = (Returns (redirect_url_for views_index),
          mkWorld (db w2) (uploads w2) (Some 1) (flashed w2))
    /\ login Demo.email_ok Demo.check Demo.post
         (mkLoginForm (Some "a@x.com") (Some "password1") false) w2
       = (Returns (render_template login_html (form_context [])),
          mkWorld (db w2) (uploads w2) None
            (flashed w2 ++ [(danger, WrongEmailOrPassword)])).
Proof.
  pose proof (edit_account_then_login Demo.email_ok Demo.check Demo.post
                (Demo.world (Some 1)) Demo.alice "al@x.com" "password1" false)
    as H.
  feed H. destruct H as (w1 & w2 & H1 & H2 & H3 & H4).
  exists w1, w2. repeat split; assumption.
Defined.

Lemma edit_account_scope_witness :
  map user_password_hash
    (users (db (snd (edit_account Demo.email_ok Demo.post
                       (mkEditProfileForm (Some "al@x.com"))
                       (Demo.world (Some 1))))))
  = map user_password_hash (users Demo.store).
Proof.
  pose proof (edit_account_scope Demo.email_ok Demo.post
                (mkEditProfileForm (Some "al@x.com")) (Demo.world (Some 1))
                Demo.alice) as H.
  feed H. destruct H as (_ & _ & H & _). exact H.
Defined.



Lemma comment_by_user_stored_witness :
  product Demo.post (mkCommentForm (Some "Washes well, too.")) 2
    (Demo.world (Some 2))
  = (Returns (redirect_url_for (views_product 2)),
     mkWorld
       (mkStore (users Demo.store) (shops Demo.store) (products Demo.store)
          (comments Demo.store ++ [mkComment 4 "Washes well, too." 2 2]))
       ["ab12_shirt.png"] (Some 2) [(success, CommentAdded)]).
Proof.
  pose proof (comment_by_user_stored Demo.post "Washes well, too."
                (Demo.world (Some 2)) Demo.bob 2 Demo.blue_pants) as H.
  feed H. destruct H as (H & _). exact H.
Defined.

Lemma comment_by_anonymous_redirected_witness :
  product Demo.post (mkCommentForm (Some "Washes well, too.")) 2
    (Demo.world None)
  = (Returns (redirect_url_for views_login),
     mkWorld Demo.store ["ab12_shirt.png"] None
       [(warning, LoginNeededToComment)]).
Proof.
  pose proof (comment_by_anonymous_redirected Demo.post "Washes well, too."
                (Demo.world None) 2 Demo.blue_pants) as H.
  feed H. exact H.
Defined.

Lemma delete_product_removes_image_witness :
  ~ In "ab12_shirt.png"%string
      (uploads (snd (delete_product Demo.post 1 (Demo.world (Some 1)))))
  /\ delete_product Demo.post_remove_fails 1 (Demo.world (Some 1))
     = (Returns (redirect_url_for (views_manage_shop 1)),
        mkWorld (delete_product_rows Demo.red_shirt Demo.store)
          ["ab12_shirt.png"] (Some 1)
          [(warning, ImageRemoveError); (success, ProductDeleted)]).
Proof.
  split.
  - pose proof (delete_product_removes_image Demo.post (Demo.world (Some 1))
                  Demo.alice 1 Demo.red_shirt Demo.alices_shop) as H.
    feed H. destruct H as (H & _).
    specialize (H eq_refl "ab12_shirt.png"%string). feed H.
    destruct H as (Hn & _). exact Hn.
  - pose proof (delete_product_removes_image Demo.post_remove_fails
                  (Demo.world (Some 1)) Demo.alice 1 Demo.red_shirt
                  Demo.alices_shop) as H.
    feed H. destruct H as (_ & _ & H).
    destruct (H eq_refl) as (_ & Hr).
    specialize (Hr "ab12_shirt.png"%string). feed Hr. exact Hr.
Defined.

Lemma login_required_blocks_witness :
  delete_product Demo.post 1 (Demo.world None)
  = (Unauthorized, Demo.world None).
Proof.
  pose proof (login_required_blocks Demo.email_ok Demo.hash Demo.check
                Demo.secure (call_delete_product 1) Demo.post
                (Demo.world None)) as H.
  feed H. exact H.
Defined.

Lemma anonymous_writes_only_by_register_witness :
  db (snd (product Demo.post (mkCommentForm (Some "Washes well, too.")) 2
             (Demo.world None))) = Demo.store.
Proof.
  pose proof (anonymous_writes_only_by_register Demo.email_ok Demo.hash
                Demo.check Demo.secure
                (call_product (mkCommentForm (Some "Washes well, too.")) 2)
                Demo.post (Demo.world None)) as H.
  feed H. destruct H as (H & _). exact H.
Defined.

Lemma reading_views_write_nothing_witness :
  db (snd (login Demo.email_ok Demo.check Demo.post
             (mkLoginForm (Some "a@x.com") (Some "password1") true)
             (Demo.world None))) = Demo.store.
Proof.
  pose proof (reading_views_write_nothing Demo.email_ok Demo.hash Demo.check
                Demo.secure
                (call_login (mkLoginForm (Some "a@x.com") (Some "password1")
                               true))
                Demo.post (Demo.world None)) as H.
  feed H. destruct H as (H & _). exact H.
Defined.

Lemma get_requests_write_nothing_witness :
  flashed (snd (register Demo.email_ok Demo.hash (Demo.get_q "")
                  (mkRegisterForm (Some "carol@x.com") (Some "password3")
                     (Some "password3")) (Demo.world None))) = [].
Proof.
  pose proof (get_requests_write_nothing Demo.email_ok Demo.hash Demo.check
                Demo.secure
                (call_register
                   (mkRegisterForm (Some "carol@x.com") (Some "password3")
                      (Some "password3")))
                (Demo.get_q "") (Demo.world None)) as H.
  feed H. destruct H as (_ & _ & H). exact H.
Defined.

Lemma search_case_insensitive_witness :
  exists results : list Product,
    search (Demo.get_q "SHIRT") (Demo.world None)
    = (Returns (render_template search_html (search_context results "SHIRT")),
       Demo.world None)
    /\ search (Demo.get_q "shirt") (Demo.world None)
       = (Returns (render_template search_html (search_context results "shirt")),
          Demo.world None).
Proof.
  pose proof (search_case_insensitive (Demo.get_q "SHIRT") (Demo.get_q "shirt")
                (Demo.world None) "SHIRT" "shirt") as H.
  feed H. exact H.
Defined.

Lemma search_percent_returns_all_witness :
  search (Demo.get_q "%%") (Demo.world None)
  = (Returns (render_template search_html
                (search_context [Demo.red_shirt; Demo.blue_pants] "%%")),
     Demo.world None).
Proof.
  pose proof (search_percent_returns_all (Demo.get_q "%%") (Demo.world None)
                "%%") as H.
  feed H. exact H.
Defined.

Lemma search_wildcard_free_witness :
  search (Demo.get_q "blue") (Demo.world None)
  = (Returns (render_template search_html
                (search_context
                   (filter (fun p => icontains "blue" (product_title p)
                                     || icontains "blue" (product_description p))
                      (products Demo.store)) "blue")),
     Demo.world None).
Proof.
  pose proof (search_wildcard_free (Demo.get_q "blue") (Demo.world None)
                "blue") as H.
  feed H. exact H.
Defined.

Lemma account_shops_manageable_witness :
  exists listed : list Shop,
    account (Demo.world (Some 1))
    = (Returns (render_template account_html
                  (mkContext None None listed None [] None)),
       Demo.world (Some 1))
    /\ forall s, In s listed ->
                 manage_shop (shop_id s) (Demo.world (Some 1))
                 = (Returns (render_template manage_shop_html
                               (shop_context s None)), Demo.world (Some 1)).
Proof.
  pose proof (account_shops_manageable (Demo.world (Some 1)) Demo.alice) as H.
  feed H. destruct H as (listed & H1 & _ & H2).
  exists listed. split; assumption.
Defined.


Lemma reachable_store_ok_witness :
  store_ok
    (db (snd (register Demo.email_ok Demo.hash Demo.post
                (mkRegisterForm (Some "a@x.com") (Some "password1")
                   (Some "password1"))
                (mkWorld empty_store [] None [])))).
Proof.
  apply (reachable_store_ok Demo.email_ok Demo.hash Demo.check Demo.secure).
  apply (reachable_call Demo.email_ok Demo.hash Demo.check Demo.secure
           (call_register
              (mkRegisterForm (Some "a@x.com") (Some "password1")
                 (Some "password1")))
           Demo.post (mkWorld empty_store [] None [])).
  apply reachable_empty.
Defined.

Lemma login_failure_outcomes_witness :
  (exists fl,
     flashed (snd (login Demo.email_ok Demo.check Demo.post
                     (mkLoginForm (Some "a@x.com") (Some "letmein!") false)
                     (Demo.world None)))
     = flashed (Demo.world None) ++ fl
     /\ flashed (snd (login Demo.email_ok Demo.check Demo.post
                        (mkLoginForm (Some "a@x.com") (Some "letmein!") false)
                        (mkWorld empty_store [] None [])))
        = flashed (mkWorld empty_store [] None []) ++ fl)
  /\ fst (login Demo.email_ok Demo.check Demo.post
            (mkLoginForm (Some "a@x.com") (Some Demo.long_password) false)
            (Demo.world None)) = Uncaught.
Proof.
  split.
  - destruct (login_failure_outcomes Demo.email_ok Demo.check Demo.post
                (mkLoginForm (Some "a@x.com") (Some "letmein!") false))
      as [H _].
    specialize (H (Demo.world None) (mkWorld empty_store [] None [])
                  login_html login_html (form_context []) (form_context [])).
    feed H. destruct H as (_ & _ & H). exact H.
  - destruct (login_failure_outcomes Demo.email_ok Demo.check Demo.post
                (mkLoginForm (Some "a@x.com") (Some Demo.long_password)
                   false)) as [_ H].
    specialize (H (Demo.world None)). feed H. apply H.
    split; [reflexivity|]. split; [reflexivity|].
    exists Demo.alice. split; reflexivity.
Defined.

Lemma login_hasher_error_reveals_email_witness :
  login Demo.email_ok Demo.check Demo.post
    (mkLoginForm (Some "a@x.com") (Some Demo.long_password) false)
    (Demo.world None)
  = (Uncaught, Demo.world None)
  /\ login Demo.email_ok Demo.check Demo.post
       (mkLoginForm (Some "z@x.com") (Some Demo.long_password) false)
       (Demo.world None)
     = (Returns (render_template login_html (form_context [])),
        mkWorld Demo.store ["ab12_shirt.png"] None
          [(danger, WrongEmailOrPassword)]).
Proof.
  pose proof (login_hasher_error_reveals_email Demo.email_ok Demo.check
                Demo.post (Demo.world None) Demo.long_password false) as H.
  feed H. destruct H as [H1 H2].
  specialize (H1 Demo.alice). feed H1.
  specialize (H2 "z@x.com"%string). feed H2.
  split; [exact H1|exact H2].
Defined.

Lemma login_outcomes_witness :
  login Demo.email_ok Demo.check Demo.post
    (mkLoginForm (Some "a@x.com") (Some "password1") false) (Demo.world None)
  = (Returns (redirect_url_for views_index),
     mkWorld Demo.store ["ab12_shirt.png"] (Some 1) [])
  /\ login Demo.email_ok Demo.check Demo.post
       (mkLoginForm (Some "a@x.com") (Some "letmein!") false) (Demo.world None)
     = (Returns (render_template login_html (form_context [])),
        mkWorld Demo.store ["ab12_shirt.png"] None
          [(danger, WrongEmailOrPassword)])
  /\ login Demo.email_ok Demo.check Demo.post
       (mkLoginForm (Some "z@x.com") (Some "password1") false) (Demo.world None)
     = (Returns (render_template login_html (form_context [])),
        mkWorld Demo.store ["ab12_shirt.png"] None
          [(danger, WrongEmailOrPassword)]).
Proof.
  pose proof (login_outcomes Demo.email_ok Demo.check Demo.post
                (Demo.world None)) as H.
  feed H. destruct H as (H1 & H2 & H3).
  specialize (H1 Demo.alice
                (mkLoginForm (Some "a@x.com") (Some "password1") false)
                "password1"%string).
  feed H1.
  specialize (H2 Demo.alice
                (mkLoginForm (Some "a@x.com") (Some "letmein!") false)
                "letmein!"%string).
  feed H2.
  specialize (H3 (mkLoginForm (Some "z@x.com") (Some "password1") false)).
  feed H3.
  split; [exact H1|split; [exact H2|exact H3]].
Defined.

Lemma edit_account_rejects_own_email_witness :
  edit_account Demo.email_ok Demo.post (mkEditProfileForm (Some "a@x.com"))
    (Demo.world (Some 1))
  = (Returns (render_template edit_account_html
                (form_context [(f_email, [EmailAlreadyRegistered])])),
     Demo.world (Some 1)).
Proof.
  pose proof (edit_account_rejects_own_email Demo.email_ok Demo.post
                (Demo.world (Some 1)) Demo.alice) as H.
  feed H. exact H.
Defined.

Lemma edit_account_email_must_be_fresh_witness :
  edit_account Demo.email_ok Demo.post (mkEditProfileForm (Some "new@x.com"))
    (Demo.world (Some 1))
  = (Returns (redirect_url_for views_account),
     mkWorld (update_user Demo.alice (set_email "new@x.com") Demo.store)
       ["ab12_shirt.png"] (Some 1) [(success, ProfileUpdated)])
  /\ field_errors f_email
       (EditProfileForm_validate Demo.email_ok Demo.store
          (mkEditProfileForm (Some "b@x.com"))) <> [].
Proof.
  pose proof (edit_account_email_must_be_fresh Demo.email_ok Demo.post
                (Demo.world (Some 1)) Demo.alice) as H.
  feed H. destruct H as [H1 H2].
  specialize (H1 "new@x.com"%string). feed H1. destruct H1 as [H1 _].
  specialize (H2 Demo.bob). feed H2. destruct H2 as [_ H2].
  split; [exact H1|exact H2].
Defined.

